(** * Conveyor control: the box sequencing state machine of [bbb.py]

    A shallow embedding of the Flask handlers of [src/bbb.py] that drive
    the conveyor ([start_production], [check_production_status],
    [restart_conveyor], [simulate_conveyor_start], [activate_scanner],
    [reset_production]) together with the helpers they call
    ([read_plc_memory], [write_plc_memory], [reset_plc_memory],
    [generate_qr_code]).

    What the handlers share is modelled as a store that is threaded through
    every call:
    - the PLC holding registers, a finite map from addresses to values;
    - the Flask session.  [production = session['production_data']] is an
      alias of the dictionary held by the session, so an in-place
      [production.update(...)] changes the session's object at once, but the
      session cookie is only written back when the session was marked
      modified by an assignment [session['production_data'] = ...] (or a
      [pop]) during the request;
    - the outcome of every bus transaction, the wall clock, the printer and
      the fresh part of every generated code, which come from outside. *)

From stdpp Require Import base option list gmap strings.
From Stdlib Require Import ZArith Lia.

Local Open Scope string_scope.
Local Open Scope Z_scope.

(** ** Memory addresses *)

Definition CONVEYOR_CONTROL_ADDRESS : Z := 400001.
Definition PROXIMITY_SENSOR_1_ADDRESS : Z := 400002.
Definition PROXIMITY_SENSOR_2_ADDRESS : Z := 400003.
Definition QR_SCANNER_ADDRESS : Z := 400004.
Definition ACCEPTED_BOXES_ADDRESS : Z := 400005.
Definition PRODUCTION_COMPLETE_ADDRESS : Z := 400006.
Definition BOX_STATUS_INDICATOR_ADDRESS : Z := 400007.

(** The scan window of [check_production_status] ([elapsed >= 5], in
    seconds).  Time is counted in microseconds, the resolution of
    [datetime]. *)
Definition SCAN_WINDOW : Z := 5000000.

(** ** Data *)

(** The dictionary returned by [generate_qr_code]. [qr_data] is kept as the
    two entries of the JSON document that depend on the box. *)
Record QrCode := {
  unique_id : string;
  qr_image : string;
  box_number : Z;
  total_boxes : Z
}.

(** The values written to [production['status']]. *)
Inductive Status := waiting_for_conveyor | running | completed | stopped.

(** [session['production_data']].  The keys [end_time] and [queued_box] are
    absent from the dictionary built by [start_production]; [None] stands
    for an absent key (and for the value [None] of [sensor_check_start]). *)
Record Production := {
  biscuit_type : string;
  brand : string;
  production_type : string;
  quantity : Z;
  qr_codes : list QrCode;
  current_index : Z;
  accepted_boxes : Z;
  rejected_boxes : Z;
  start_time : Z;
  end_time : option Z;
  status : Status;
  sensor_check_start : option Z;
  waiting_for_proximity_1 : bool;
  waiting_for_proximity_2 : bool;
  waiting_for_qr : bool;
  queued_box : option bool
}.

#[global] Instance QrCode_eq_dec : EqDecision QrCode.
Proof. solve_decision. Defined.
#[global] Instance Status_eq_dec : EqDecision Status.
Proof. solve_decision. Defined.
#[global] Instance Production_eq_dec : EqDecision Production.
Proof. solve_decision. Defined.

(** In-place updates of single keys of the dictionary. *)
Definition set_qr_codes (v : list QrCode) (p : Production) : Production :=
  {| biscuit_type := biscuit_type p; brand := brand p;
     production_type := production_type p; quantity := quantity p;
     qr_codes := v; current_index := current_index p;
     accepted_boxes := accepted_boxes p; rejected_boxes := rejected_boxes p;
     start_time := start_time p; end_time := end_time p; status := status p;
     sensor_check_start := sensor_check_start p;
     waiting_for_proximity_1 := waiting_for_proximity_1 p;
     waiting_for_proximity_2 := waiting_for_proximity_2 p;
     waiting_for_qr := waiting_for_qr p; queued_box := queued_box p |}.

Definition set_current_index (v : Z) (p : Production) : Production :=
  {| biscuit_type := biscuit_type p; brand := brand p;
     production_type := production_type p; quantity := quantity p;
     qr_codes := qr_codes p; current_index := v;
     accepted_boxes := accepted_boxes p; rejected_boxes := rejected_boxes p;
     start_time := start_time p; end_time := end_time p; status := status p;
     sensor_check_start := sensor_check_start p;
     waiting_for_proximity_1 := waiting_for_proximity_1 p;
     waiting_for_proximity_2 := waiting_for_proximity_2 p;
     waiting_for_qr := waiting_for_qr p; queued_box := queued_box p |}.

Definition set_accepted_boxes (v : Z) (p : Production) : Production :=
  {| biscuit_type := biscuit_type p; brand := brand p;
     production_type := production_type p; quantity := quantity p;
     qr_codes := qr_codes p; current_index := current_index p;
     accepted_boxes := v; rejected_boxes := rejected_boxes p;
     start_time := start_time p; end_time := end_time p; status := status p;
     sensor_check_start := sensor_check_start p;
     waiting_for_proximity_1 := waiting_for_proximity_1 p;
     waiting_for_proximity_2 := waiting_for_proximity_2 p;
     waiting_for_qr := waiting_for_qr p; queued_box := queued_box p |}.

Definition set_rejected_boxes (v : Z) (p : Production) : Production :=
  {| biscuit_type := biscuit_type p; brand := brand p;
     production_type := production_type p; quantity := quantity p;
     qr_codes := qr_codes p; current_index := current_index p;
     accepted_boxes := accepted_boxes p; rejected_boxes := v;
     start_time := start_time p; end_time := end_time p; status := status p;
     sensor_check_start := sensor_check_start p;
     waiting_for_proximity_1 := waiting_for_proximity_1 p;
     waiting_for_proximity_2 := waiting_for_proximity_2 p;
     waiting_for_qr := waiting_for_qr p; queued_box := queued_box p |}.

Definition set_start_time (v : Z) (p : Production) : Production :=
  {| biscuit_type := biscuit_type p; brand := brand p;
     production_type := production_type p; quantity := quantity p;
     qr_codes := qr_codes p; current_index := current_index p;
     accepted_boxes := accepted_boxes p; rejected_boxes := rejected_boxes p;
     start_time := v; end_time := end_time p; status := status p;
     sensor_check_start := sensor_check_start p;
     waiting_for_proximity_1 := waiting_for_proximity_1 p;
     waiting_for_proximity_2 := waiting_for_proximity_2 p;
     waiting_for_qr := waiting_for_qr p; queued_box := queued_box p |}.

Definition set_end_time (v : option Z) (p : Production) : Production :=
  {| biscuit_type := biscuit_type p; brand := brand p;
     production_type := production_type p; quantity := quantity p;
     qr_codes := qr_codes p; current_index := current_index p;
     accepted_boxes := accepted_boxes p; rejected_boxes := rejected_boxes p;
     start_time := start_time p; end_time := v; status := status p;
     sensor_check_start := sensor_check_start p;
     waiting_for_proximity_1 := waiting_for_proximity_1 p;
     waiting_for_proximity_2 := waiting_for_proximity_2 p;
     waiting_for_qr := waiting_for_qr p; queued_box := queued_box p |}.

Definition set_status (v : Status) (p : Production) : Production :=
  {| biscuit_type := biscuit_type p; brand := brand p;
     production_type := production_type p; quantity := quantity p;
     qr_codes := qr_codes p; current_index := current_index p;
     accepted_boxes := accepted_boxes p; rejected_boxes := rejected_boxes p;
     start_time := start_time p; end_time := end_time p; status := v;
     sensor_check_start := sensor_check_start p;
     waiting_for_proximity_1 := waiting_for_proximity_1 p;
     waiting_for_proximity_2 := waiting_for_proximity_2 p;
     waiting_for_qr := waiting_for_qr p; queued_box := queued_box p |}.

Definition set_sensor_check_start (v : option Z) (p : Production) : Production :=
  {| biscuit_type := biscuit_type p; brand := brand p;
     production_type := production_type p; quantity := quantity p;
     qr_codes := qr_codes p; current_index := current_index p;
     accepted_boxes := accepted_boxes p; rejected_boxes := rejected_boxes p;
     start_time := start_time p; end_time := end_time p; status := status p;
     sensor_check_start := v;
     waiting_for_proximity_1 := waiting_for_proximity_1 p;
     waiting_for_proximity_2 := waiting_for_proximity_2 p;
     waiting_for_qr := waiting_for_qr p; queued_box := queued_box p |}.

Definition set_waiting_for_proximity_1 (v : bool) (p : Production) : Production :=
  {| biscuit_type := biscuit_type p; brand := brand p;
     production_type := production_type p; quantity := quantity p;
     qr_codes := qr_codes p; current_index := current_index p;
     accepted_boxes := accepted_boxes p; rejected_boxes := rejected_boxes p;
     start_time := start_time p; end_time := end_time p; status := status p;
     sensor_check_start := sensor_check_start p;
     waiting_for_proximity_1 := v;
     waiting_for_proximity_2 := waiting_for_proximity_2 p;
     waiting_for_qr := waiting_for_qr p; queued_box := queued_box p |}.

Definition set_waiting_for_proximity_2 (v : bool) (p : Production) : Production :=
  {| biscuit_type := biscuit_type p; brand := brand p;
     production_type := production_type p; quantity := quantity p;
     qr_codes := qr_codes p; current_index := current_index p;
     accepted_boxes := accepted_boxes p; rejected_boxes := rejected_boxes p;
     start_time := start_time p; end_time := end_time p; status := status p;
     sensor_check_start := sensor_check_start p;
     waiting_for_proximity_1 := waiting_for_proximity_1 p;
     waiting_for_proximity_2 := v;
     waiting_for_qr := waiting_for_qr p; queued_box := queued_box p |}.

Definition set_waiting_for_qr (v : bool) (p : Production) : Production :=
  {| biscuit_type := biscuit_type p; brand := brand p;
     production_type := production_type p; quantity := quantity p;
     qr_codes := qr_codes p; current_index := current_index p;
     accepted_boxes := accepted_boxes p; rejected_boxes := rejected_boxes p;
     start_time := start_time p; end_time := end_time p; status := status p;
     sensor_check_start := sensor_check_start p;
     waiting_for_proximity_1 := waiting_for_proximity_1 p;
     waiting_for_proximity_2 := waiting_for_proximity_2 p;
     waiting_for_qr := v; queued_box := queued_box p |}.

Definition set_queued_box (v : option bool) (p : Production) : Production :=
  {| biscuit_type := biscuit_type p; brand := brand p;
     production_type := production_type p; quantity := quantity p;
     qr_codes := qr_codes p; current_index := current_index p;
     accepted_boxes := accepted_boxes p; rejected_boxes := rejected_boxes p;
     start_time := start_time p; end_time := end_time p; status := status p;
     sensor_check_start := sensor_check_start p;
     waiting_for_proximity_1 := waiting_for_proximity_1 p;
     waiting_for_proximity_2 := waiting_for_proximity_2 p;
     waiting_for_qr := waiting_for_qr p; queued_box := v |}.

(** [production.get('queued_box')] used as a condition: an absent key gives
    [None], which is false. *)
Definition get_queued_box (p : Production) : bool := default false (queued_box p).

(** ** Responses *)

(** The values put in a JSON response. *)
Inductive JVal :=
| JStr (s : string)
| JInt (n : Z)
| JBool (b : bool)
| JCode (c : QrCode).

#[global] Instance JVal_eq_dec : EqDecision JVal.
Proof. solve_decision. Defined.

(** [jsonify(body), code]. *)
Record Response := {
  body : gmap string JVal;
  http : Z
}.

(** ** The store of a request and what comes from outside *)

(** The exceptions the handlers can meet. *)
Inductive exn :=
| PlcReadError (address : Z)
| PlcWriteError (address value : Z)
| IndexError
| TypeError
| KeyError.

#[global] Instance exn_eq_dec : EqDecision exn.
Proof. solve_decision. Defined.

(** What one request gets from outside: [faults] gives the outcome of the
    coming bus transactions in order ([true]: the transaction raises;
    past the end of the list they succeed), [clock n] is the reading of the
    [n]-th call of [datetime.now()] of the request, [printer_ok] the result
    of [print_qr_code_to_hp_printer], and [stamp n] the timestamp and random
    suffix of the [n]-th generated code. *)
Record Env := {
  faults : list bool;
  clock : nat → Z;
  printer_ok : bool;
  stamp : nat → string
}.

(** The store threaded through a handler; [printed] lists the images sent
    to the printer. *)
Record St := {
  session : option Production;
  modified : bool;
  plc : gmap Z Z;
  pending : list bool;
  n_now : nat;
  n_stamp : nat;
  printed : list string
}.

Inductive Res (A : Type) :=
| Ok (a : A)
| Raise (e : exn).
Arguments Ok {A} a.
Arguments Raise {A} e.

Definition M (A : Type) : Type := St → Res A * St.

#[global] Instance M_ret : MRet M := λ A a s, (Ok a, s).
#[global] Instance M_bind : MBind M := λ A B f m s,
  match m s with
  | (Ok a, s') => f a s'
  | (Raise e, s') => (Raise e, s')
  end.

(** [pass], and an [if] without [else]. *)
Definition pass : M unit := mret tt.

Definition when (b : bool) (body : M unit) : M unit := if b then body else pass.

Definition raise {A} (e : exn) : M A := λ s, (Raise e, s).

(** [try: body except Exception as e: handler]. *)
Definition try_except {A} (body : M A) (handler : exn → M A) : M A := λ s,
  match body s with
  | (Ok a, s') => (Ok a, s')
  | (Raise e, s') => handler e s'
  end.

Definition set_session (v : option Production) (s : St) : St :=
  {| session := v; modified := modified s; plc := plc s; pending := pending s;
     n_now := n_now s; n_stamp := n_stamp s; printed := printed s |}.
Definition set_modified (v : bool) (s : St) : St :=
  {| session := session s; modified := v; plc := plc s; pending := pending s;
     n_now := n_now s; n_stamp := n_stamp s; printed := printed s |}.
Definition set_plc (v : gmap Z Z) (s : St) : St :=
  {| session := session s; modified := modified s; plc := v; pending := pending s;
     n_now := n_now s; n_stamp := n_stamp s; printed := printed s |}.
Definition set_pending (v : list bool) (s : St) : St :=
  {| session := session s; modified := modified s; plc := plc s; pending := v;
     n_now := n_now s; n_stamp := n_stamp s; printed := printed s |}.
Definition set_n_now (v : nat) (s : St) : St :=
  {| session := session s; modified := modified s; plc := plc s; pending := pending s;
     n_now := v; n_stamp := n_stamp s; printed := printed s |}.
Definition set_n_stamp (v : nat) (s : St) : St :=
  {| session := session s; modified := modified s; plc := plc s; pending := pending s;
     n_now := n_now s; n_stamp := v; printed := printed s |}.
Definition set_printed (v : list string) (s : St) : St :=
  {| session := session s; modified := modified s; plc := plc s; pending := pending s;
     n_now := n_now s; n_stamp := n_stamp s; printed := v |}.

(** *** The session *)

(** ['production_data' in session] and [session['production_data']]. *)
Definition in_session : M bool := λ s, (Ok (bool_decide (is_Some (session s))), s).

Definition production : M Production := λ s,
  match session s with
  | Some p => (Ok p, s)
  | None => (Raise KeyError, s)
  end.

(** An in-place change of the dictionary [production]: the object held by
    the session changes, the session is not marked modified. *)
Definition production_update (f : Production → Production) : M unit := λ s,
  (Ok tt, set_session (f <$> session s) s).

(** [session['production_data'] = production], the object being the one the
    session holds already: only the modified mark changes. *)
Definition session_store : M unit := λ s, (Ok tt, set_modified true s).

(** [session['production_data'] = {...}] with a new dictionary. *)
Definition session_assign (p : Production) : M unit := λ s,
  (Ok tt, set_modified true (set_session (Some p) s)).

(** [session.pop('production_data')]. *)
Definition session_pop : M unit := λ s,
  (Ok tt, set_modified true (set_session None s)).

(** *** The register bus *)

(** The outcome of the next transaction. *)
Definition next_fault (s : St) : bool * St :=
  match pending s with
  | [] => (false, s)
  | b :: rest => (b, set_pending rest s)
  end.

Definition read_plc_memory (address : Z) : M Z := λ s,
  let '(failed, s') := next_fault s in
  if failed then (Raise (PlcReadError address), s')
  else (Ok (plc s' !!! address), s').

Definition write_plc_memory (address value : Z) : M unit := λ s,
  let '(failed, s') := next_fault s in
  if failed then (Raise (PlcWriteError address value), s')
  else (Ok tt, set_plc (<[address := value]> (plc s')) s').

(** Reset all PLC memory locations to default values. *)
Definition reset_plc_memory : M unit :=
  write_plc_memory CONVEYOR_CONTROL_ADDRESS 0;;
  write_plc_memory PROXIMITY_SENSOR_1_ADDRESS 0;;
  write_plc_memory PROXIMITY_SENSOR_2_ADDRESS 0;;
  write_plc_memory QR_SCANNER_ADDRESS 0;;
  write_plc_memory PRODUCTION_COMPLETE_ADDRESS 0;;
  write_plc_memory BOX_STATUS_INDICATOR_ADDRESS 0.

(** *** Clock, printer, code generator, list indexing *)

Definition datetime_now (e : Env) : M Z := λ s,
  (Ok (clock e (n_now s)), set_n_now (S (n_now s)) s).

(** [datetime.fromisoformat(production['sensor_check_start'])]: a
    [TypeError] on [None]. *)
Definition fromisoformat (t : option Z) : M Z :=
  match t with
  | Some t0 => mret t0
  | None => raise TypeError
  end.

(** The printer is outside; the request to print is logged, the result is
    the one the printer gives. *)
Definition print_qr_code_to_hp_printer (e : Env) (qr_image_path : string) : M bool := λ s,
  (Ok (printer_ok e), set_printed (printed s ++ [qr_image_path]) s).

(** [s[:3]]. *)
Definition prefix3 (s : string) : string := String.substring 0 3 s.

(** The argument [production_data] of [generate_qr_code]. *)
Record QrData := {
  qd_biscuit_type : string;
  qd_brand : string;
  qd_production_type : string;
  qd_quantity : Z
}.

(** The dictionary [generate_qr_code] returns when the timestamp and the
    random suffix make up [fresh]. *)
Definition qr_code_for (production_data : QrData) (box_index : Z) (fresh : string)
    : QrCode :=
  let id := prefix3 (qd_biscuit_type production_data) +:+ "-" +:+
            prefix3 (qd_brand production_data) +:+ "-" +:+ fresh in
  {| unique_id := id;
     qr_image := "static/qr_codes/" +:+ id +:+ ".png";
     box_number := box_index + 1;
     total_boxes := qd_quantity production_data |}.

Definition generate_qr_code (e : Env) (production_data : QrData) (box_index : Z)
    : M QrCode := λ s,
  (Ok (qr_code_for production_data box_index (stamp e (n_stamp s))),
   set_n_stamp (S (n_stamp s)) s).

(** [l[i]] of Python: a negative index counts from the end, an index out of
    range raises [IndexError]. *)
Definition py_index {A} (l : list A) (i : Z) : option nat :=
  let n := Z.of_nat (length l) in
  if bool_decide (0 ≤ i < n) then Some (Z.to_nat i)
  else if bool_decide (- n ≤ i < 0) then Some (Z.to_nat (n + i))
  else None.

Definition getitem {A} (l : list A) (i : Z) : M A :=
  match py_index l i ≫= (l !!.) with
  | Some x => mret x
  | None => raise IndexError
  end.

(** [l[i] = x], giving the list after the assignment. *)
Definition setitem {A} (l : list A) (i : Z) (x : A) : M (list A) :=
  match py_index l i with
  | Some k => mret (<[k := x]> l)
  | None => raise IndexError
  end.

(** ** The handlers *)

(** A dictionary literal, [response.update({...})] and the error reply of the
    [except] clauses that answer [str(e)]. *)
Definition dict (kvs : list (string * JVal)) : gmap string JVal := list_to_map kvs.

Definition update (kvs : list (string * JVal)) (response : gmap string JVal)
    : gmap string JVal := dict kvs ∪ response.

Definition jsonify (b : gmap string JVal) (code : Z) : Response :=
  {| body := b; http := code |}.

Definition error_reply (e : exn) : M Response :=
  mret (jsonify (dict [("error", JStr "exception")]) 500).

(** The JSON document of a start request. A required field that is missing
    is [None]; [custom_quantity] is carried as the integer [int(...)] makes of
    it. *)
Record StartData := {
  sd_biscuit_type : option string;
  sd_brand : option string;
  sd_production_type : option string;
  sd_custom_quantity : option Z
}.

(** [for i in range(quantity): qr_codes.append(generate_qr_code(qr_data, i))],
    over the indices still to do. *)
Fixpoint generate_qr_codes (e : Env) (qr_data : QrData) (indices : list Z)
    : M (list QrCode) :=
  match indices with
  | [] => mret []
  | i :: rest =>
      qr_code ← generate_qr_code e qr_data i;
      qr_codes ← generate_qr_codes e qr_data rest;
      mret (qr_code :: qr_codes)
  end.

(** The part of [start_production] after the quantity is known. *)
Definition start_run (e : Env) (bt br pt : string) (quantity : Z) : M Response :=
  let qr_data := {| qd_biscuit_type := bt; qd_brand := br;
                    qd_production_type := pt; qd_quantity := quantity |} in
  qr_codes ← generate_qr_codes e qr_data (seqZ 0 quantity);
  now ← datetime_now e;
  session_assign
    {| biscuit_type := bt; brand := br; production_type := pt;
       quantity := quantity; qr_codes := qr_codes; current_index := 0;
       accepted_boxes := 0; rejected_boxes := 0; start_time := now;
       end_time := None; status := waiting_for_conveyor;
       sensor_check_start := None; waiting_for_proximity_1 := true;
       waiting_for_proximity_2 := false; waiting_for_qr := false;
       queued_box := None |};;
  (* Reset PLC memory (except accepted boxes counter) *)
  reset_plc_memory;;
  write_plc_memory ACCEPTED_BOXES_ADDRESS 0;;
  (* Signal conveyor to start *)
  write_plc_memory CONVEYOR_CONTROL_ADDRESS 1;;
  first_qr_code ← getitem qr_codes 0;
  mret (jsonify (dict [("message", JStr "Production started - waiting for conveyor");
                       ("first_qr_code", JCode first_qr_code);
                       ("total_quantity", JInt quantity)]) 200).

Definition start_production (e : Env) (data : StartData) : M Response :=
  match sd_biscuit_type data, sd_brand data,
        sd_production_type data, sd_custom_quantity data with
  | Some bt, Some br, Some pt, Some custom_quantity =>
      try_except
        (if String.eqb pt "P1" then start_run e bt br pt 10
         else if String.eqb pt "P2" then start_run e bt br pt 20
         else
           let quantity := custom_quantity in
           if quantity <=? 0
           then mret (jsonify (dict [("error", JStr "Quantity must be positive")]) 400)
           else start_run e bt br pt quantity)
        error_reply
  | _, _, _, _ =>
      mret (jsonify (dict [("error", JStr "Missing required fields")]) 400)
  end.

Definition restart_conveyor (e : Env) : M Response :=
  try_except
    (present ← in_session;
     if negb present
     then mret (jsonify (dict [("error", JStr "No production to restart")]) 400)
     else
       p ← production;
       (* Check if production was stopped *)
       if negb (bool_decide (status p = stopped))
       then mret (jsonify (dict [("error", JStr "Production not in stopped state")]) 400)
       else
         (* Generate new QR code for the rejected box *)
         let qr_data := {| qd_biscuit_type := biscuit_type p; qd_brand := brand p;
                           qd_production_type := production_type p;
                           qd_quantity := quantity p |} in
         new_qr_code ← generate_qr_code e qr_data (current_index p);
         qr_codes' ← setitem (qr_codes p) (current_index p) new_qr_code;
         production_update (set_qr_codes qr_codes');;
         (* Reset sensors *)
         write_plc_memory PROXIMITY_SENSOR_1_ADDRESS 0;;
         write_plc_memory PROXIMITY_SENSOR_2_ADDRESS 0;;
         write_plc_memory QR_SCANNER_ADDRESS 0;;
         write_plc_memory BOX_STATUS_INDICATOR_ADDRESS 0;;
         (* Restart conveyor *)
         write_plc_memory CONVEYOR_CONTROL_ADDRESS 1;;
         (* Update production status *)
         production_update (set_status running);;
         production_update (set_waiting_for_proximity_1 true);;
         production_update (set_waiting_for_proximity_2 false);;
         production_update (set_waiting_for_qr false);;
         production_update (set_sensor_check_start None);;
         session_store;;
         p ← production;
         current_qr_code ← getitem (qr_codes p) (current_index p);
         mret (jsonify (dict [("message", JStr "Conveyor restarted");
                              ("current_qr_code", JCode current_qr_code);
                              ("remaining", JInt (quantity p - current_index p))]) 200))
    error_reply.

Definition simulate_conveyor_start : M Response :=
  try_except
    ((* Simulate conveyor sending 5 to memory address 400001 *)
     write_plc_memory CONVEYOR_CONTROL_ADDRESS 5;;
     present ← in_session;
     when present
       (production_update (set_status running);;
        production_update (set_waiting_for_proximity_1 true);;
        session_store);;
     mret (jsonify (dict [("message", JStr "Conveyor started (simulated)")]) 200))
    error_reply.

Definition activate_scanner : M Response :=
  try_except
    (write_plc_memory QR_SCANNER_ADDRESS 1;;
     mret (jsonify (dict [("message", JStr "QR scanner activated")]) 200))
    error_reply.

Definition reset_production : M Response :=
  try_except
    ((* Reset PLC memory *)
     reset_plc_memory;;
     (* Clear production data from session *)
     present ← in_session;
     when present session_pop;;
     mret (jsonify (dict [("message", JStr "Production reset successfully")]) 200))
    error_reply.

(** *** [check_production_status] *)

(** The default response. *)
Definition default_response : gmap string JVal :=
  dict [("status", JStr "not_started");
        ("message", JStr "No active production");
        ("has_queued_box", JBool false)].

(** The reply of the [except] clause of [check_production_status]. *)
Definition system_error (e : exn) : M Response :=
  mret (jsonify (dict [("error", JStr "System error"); ("status", JStr "error")]) 500).

(** Branch [production['status'] == 'waiting_for_conveyor']. *)
Definition waiting_for_conveyor_branch (e : Env) (response : gmap string JVal)
    (conveyor_status : Z) : M Response :=
  if conveyor_status =? 5 then
    (* Initialize new production run *)
    write_plc_memory PROXIMITY_SENSOR_1_ADDRESS 0;;
    write_plc_memory PROXIMITY_SENSOR_2_ADDRESS 0;;
    write_plc_memory QR_SCANNER_ADDRESS 0;;
    write_plc_memory BOX_STATUS_INDICATOR_ADDRESS 0;;
    now ← datetime_now e;
    production_update (λ p,
      set_start_time now (set_queued_box (Some false)
        (set_waiting_for_proximity_1 true (set_status running p))));;
    session_store;;
    p ← production;
    current_qr_code ← getitem (qr_codes p) (current_index p);
    mret (jsonify (update [("status", JStr "running");
                           ("current_qr_code", JCode current_qr_code);
                           ("message", JStr "Conveyor started");
                           ("waiting_for_proximity_1", JBool true)] response) 200)
  else
    mret (jsonify (update [("status", JStr "waiting_for_conveyor");
                           ("message", JStr "Waiting for conveyor start signal")]
                          response) 200).

(** Check production completion: the body of
    [if production['current_index'] >= production['quantity']]. *)
Definition production_completion (e : Env) (response : gmap string JVal) : M Response :=
  now ← datetime_now e;
  production_update (λ p,
    set_waiting_for_qr false (set_waiting_for_proximity_2 false
      (set_waiting_for_proximity_1 false (set_end_time (Some now)
        (set_status completed p)))));;
  write_plc_memory PRODUCTION_COMPLETE_ADDRESS 1;;
  write_plc_memory CONVEYOR_CONTROL_ADDRESS 0;;
  session_store;;
  p ← production;
  mret (jsonify (update [("status", JStr "completed");
                         ("accepted_boxes", JInt (accepted_boxes p));
                         ("rejected_boxes", JInt (rejected_boxes p));
                         ("show_summary", JBool true)] response) 200).

(** Automatic printing when proximity 1 is activated. *)
Definition automatic_printing (e : Env) (proximity_1 : bool) : M unit :=
  p ← production;
  when (waiting_for_proximity_1 p && proximity_1 && negb (waiting_for_qr p))
    (current_qr_code ← getitem (qr_codes p) (current_index p);
     printed ← print_qr_code_to_hp_printer e (qr_image current_qr_code);
     when printed
       (production_update (set_waiting_for_proximity_1 false);;
        production_update (set_waiting_for_proximity_2 true);;
        session_store;;
        (* Reset proximity sensor after printing *)
        write_plc_memory PROXIMITY_SENSOR_1_ADDRESS 0)).

(** Handle queued box detection, [elif] handle proximity sensor 2
    activation.  The result is [has_queued_box]. *)
Definition queued_box_or_proximity_2 (e : Env) (proximity_1 proximity_2 : bool)
    : M bool :=
  p ← production;
  let has_queued_box := proximity_1 && waiting_for_qr p in
  (if has_queued_box && negb (get_queued_box p) then
     production_update (set_queued_box (Some true));;
     session_store
   else
     when (waiting_for_proximity_2 p && proximity_2)
       (now ← datetime_now e;
        production_update (λ p,
          set_sensor_check_start (Some now) (set_waiting_for_qr true
            (set_waiting_for_proximity_2 false p)));;
        session_store;;
        (* Reset proximity sensor 2 after detection *)
        write_plc_memory PROXIMITY_SENSOR_2_ADDRESS 0));;
  mret has_queued_box.

(** Box accepted: the body of [if qr_scanner]. *)
Definition box_accepted (response : gmap string JVal) : M Response :=
  counter ← read_plc_memory ACCEPTED_BOXES_ADDRESS;
  let accepted := counter + 1 in
  write_plc_memory ACCEPTED_BOXES_ADDRESS accepted;;
  write_plc_memory BOX_STATUS_INDICATOR_ADDRESS 1;;
  (* Reset scanner after acceptance *)
  write_plc_memory QR_SCANNER_ADDRESS 0;;
  production_update (λ p,
    set_queued_box (Some false) (set_waiting_for_qr false
      (set_current_index (current_index p + 1) (set_accepted_boxes accepted p))));;
  (* Process queued box or wait for next *)
  p ← production;
  (if get_queued_box p then
     production_update (λ p,
       set_waiting_for_proximity_2 true (set_waiting_for_proximity_1 false p));;
     (* Reset proximity 1 for the queued box *)
     write_plc_memory PROXIMITY_SENSOR_1_ADDRESS 0
   else
     production_update (set_waiting_for_proximity_1 true));;
  session_store;;
  p ← production;
  current_qr_code ← getitem (qr_codes p) (current_index p);
  mret (jsonify (update [("status", JStr "accepted");
                         ("accepted_boxes", JInt accepted);
                         ("current_qr_code", JCode current_qr_code);
                         ("remaining", JInt (quantity p - current_index p));
                         ("message", JStr "Box accepted")] response) 200).

(** Box rejected: the body of [elif elapsed >= 5]. *)
Definition box_rejected (response : gmap string JVal) : M Response :=
  production_update (λ p,
    set_queued_box (Some false) (set_status stopped
      (set_rejected_boxes (rejected_boxes p + 1) p)));;
  write_plc_memory BOX_STATUS_INDICATOR_ADDRESS 2;;
  write_plc_memory CONVEYOR_CONTROL_ADDRESS 0;;
  session_store;;
  p ← production;
  mret (jsonify (update [("status", JStr "stopped");
                         ("rejected_boxes", JInt (rejected_boxes p));
                         ("remaining", JInt (quantity p - current_index p));
                         ("can_restart", JBool true)] response) 200).

(** The QR scanning timeout section: [if production['waiting_for_qr']] and
    its [else]. *)
Definition qr_scanning (e : Env) (response : gmap string JVal)
    (proximity_1 proximity_2 qr_scanner has_queued_box : bool) : M Response :=
  p ← production;
  if waiting_for_qr p then
    now ← datetime_now e;
    check_start ← fromisoformat (sensor_check_start p);
    let elapsed := now - check_start in
    let time_left := Z.max 0 (SCAN_WINDOW - elapsed) in
    if qr_scanner then box_accepted response
    else if elapsed >=? SCAN_WINDOW then box_rejected response
    else
      current_qr_code ← getitem (qr_codes p) (current_index p);
      mret (jsonify (update [("status", JStr "running");
                             ("time_left", JInt time_left);
                             ("current_qr_code", JCode current_qr_code);
                             ("message", JStr "Waiting for QR scan");
                             ("has_queued_box", JBool has_queued_box)] response) 200)
  else
    mret (jsonify (update [("status", JStr "running");
                           ("proximity_1_active", JBool proximity_1);
                           ("proximity_2_active", JBool proximity_2);
                           ("waiting_for_proximity_1", JBool (waiting_for_proximity_1 p));
                           ("waiting_for_proximity_2", JBool (waiting_for_proximity_2 p));
                           ("waiting_for_qr", JBool (waiting_for_qr p));
                           ("message", JStr "Production in progress");
                           ("has_queued_box", JBool has_queued_box)] response) 200).

(** Branch [production['status'] == 'running']. *)
Definition running_branch (e : Env) (response : gmap string JVal) : M Response :=
  p ← production;
  (* Check production completion *)
  if current_index p >=? quantity p then production_completion e response
  else
    (* Check sensor states *)
    r1 ← read_plc_memory PROXIMITY_SENSOR_1_ADDRESS;
    let proximity_1 := r1 =? 1 in
    r2 ← read_plc_memory PROXIMITY_SENSOR_2_ADDRESS;
    let proximity_2 := r2 =? 1 in
    r3 ← read_plc_memory QR_SCANNER_ADDRESS;
    let qr_scanner := r3 =? 1 in
    automatic_printing e proximity_1;;
    has_queued_box ← queued_box_or_proximity_2 e proximity_1 proximity_2;
    qr_scanning e response proximity_1 proximity_2 qr_scanner has_queued_box.

(** The handler: the [try] block, and the handler with its [except] clause.
    The structural validation of the dictionary (every required key present
    and of its type) holds of every [Production] and is not repeated here. *)
Definition check_production_status_try (e : Env) : M Response :=
  (* Initialize default response *)
  let response := default_response in
  present ← in_session;
  if negb present then mret (jsonify response 200)
  else
    p ← production;
    conveyor_status ← read_plc_memory CONVEYOR_CONTROL_ADDRESS;
    (* State machine for production flow *)
    match status p with
    | waiting_for_conveyor => waiting_for_conveyor_branch e response conveyor_status
    | running => running_branch e response
    | completed =>
        mret (jsonify (update [("status", JStr "completed");
                               ("accepted_boxes", JInt (accepted_boxes p));
                               ("rejected_boxes", JInt (rejected_boxes p));
                               ("show_summary", JBool true)] response) 200)
    | stopped =>
        mret (jsonify (update [("status", JStr "stopped");
                               ("rejected_boxes", JInt (rejected_boxes p));
                               ("remaining", JInt (quantity p - current_index p));
                               ("can_restart", JBool true)] response) 200)
    end.

Definition check_production_status (e : Env) : M Response :=
  try_except (check_production_status_try e) system_error.

(** ** Requests *)

(** What lasts from one request to the next: the session cookie, the
    registers of the PLC, and the images printed so far. *)
Record Sys := {
  cookie : option Production;
  registers : gmap Z Z;
  print_log : list string
}.

(** The store a request starts with: the session is loaded from the cookie
    and is not yet marked modified. *)
Definition initial_store (e : Env) (y : Sys) : St :=
  {| session := cookie y; modified := false; plc := registers y;
     pending := faults e; n_now := 0; n_stamp := 0; printed := print_log y |}.

(** What a request leaves: the cookie is written back only if the session
    was marked modified. *)
Definition final_sys (y : Sys) (s1 : St) : Sys :=
  {| cookie := if modified s1 then session s1 else cookie y;
     registers := plc s1; print_log := printed s1 |}.

(** One request. *)
Definition serve (handler : M Response) (e : Env) (y : Sys) : Response * Sys :=
  let '(r, s1) := handler (initial_store e y) in
  (match r with
   | Ok response => response
   | Raise _ => jsonify ∅ 500
   end,
   final_sys y s1).

(** A poll. *)
Definition poll (e : Env) (y : Sys) : Response * Sys :=
  serve (check_production_status e) e y.

(** The requests that change the session or the registers, and a write to a
    register by the line itself (sensors, scanner, line acknowledgment). *)
Inductive Event :=
| StartProduction (data : StartData)
| CheckProductionStatus
| RestartConveyor
| SimulateConveyorStart
| ActivateScanner
| ResetProduction
| Device (address value : Z).

Definition step (y : Sys) (ev : Event * Env) : Sys :=
  let '(event, e) := ev in
  match event with
  | StartProduction data => (serve (start_production e data) e y).2
  | CheckProductionStatus => (poll e y).2
  | RestartConveyor => (serve (restart_conveyor e) e y).2
  | SimulateConveyorStart => (serve simulate_conveyor_start e y).2
  | ActivateScanner => (serve activate_scanner e y).2
  | ResetProduction => (serve reset_production e y).2
  | Device address value =>
      {| cookie := cookie y; registers := <[address := value]> (registers y);
         print_log := print_log y |}
  end.

(** The state after a sequence of events. *)
Definition run (y : Sys) (trace : list (Event * Env)) : Sys := foldl step y trace.

(** ** The vocabulary of the specification *)

(** The sub-state of the current box, read off the three flags in the order
    [check_production_status] consults them. *)
Inductive BoxSubState := AwaitingProximity1 | AwaitingProximity2 | AwaitingScan.

#[global] Instance BoxSubState_eq_dec : EqDecision BoxSubState.
Proof. solve_decision. Defined.

Definition sub_state (p : Production) : option BoxSubState :=
  if waiting_for_qr p then Some AwaitingScan
  else if waiting_for_proximity_2 p then Some AwaitingProximity2
  else if waiting_for_proximity_1 p then Some AwaitingProximity1
  else None.

(** The PendingOverlap latch. *)
Definition pending_overlap (p : Production) : bool := get_queued_box p.

(** What every run record met in a session satisfies (see [run_wf]). *)
Definition wf_production (p : Production) : Prop :=
  0 ≤ current_index p ≤ quantity p ∧
  0 < quantity p ∧
  Z.of_nat (length (qr_codes p)) = quantity p ∧
  (waiting_for_qr p = true →
     waiting_for_proximity_2 p = false ∧ current_index p < quantity p ∧
     is_Some (sensor_check_start p)) ∧
  (status p = stopped → current_index p < quantity p) ∧
  (status p = waiting_for_conveyor → current_index p < quantity p) ∧
  (status p = completed → quantity p ≤ current_index p).

Definition wf_sys (y : Sys) : Prop :=
  ∀ p, cookie y = Some p → wf_production p.

(** No session, any registers. *)
Definition idle (regs : gmap Z Z) : Sys :=
  {| cookie := None; registers := regs; print_log := [] |}.

(** An event during which no bus transaction fails and which is not a write
    of the line to the accepted counter. *)
Definition undisturbed (ev : Event * Env) : Prop :=
  faults ev.2 = [] ∧
  match ev.1 with
  | Device address _ => address ≠ ACCEPTED_BOXES_ADDRESS
  | _ => True
  end.

(** The in-memory counter, the index and the counter register agree. *)
Definition counters_agree (y : Sys) : Prop :=
  ∀ p, cookie y = Some p →
    accepted_boxes p = current_index p ∧
    registers y !!! ACCEPTED_BOXES_ADDRESS = current_index p.



(** The exceptions raised by the bus, and the reads that precede every
    change of the record in a poll. *)
Definition is_plc_error (x : exn) : bool :=
  match x with
  | PlcReadError _ | PlcWriteError _ _ => true
  | _ => false
  end.

Definition is_sensor_read_error (x : exn) : bool :=
  match x with
  | PlcReadError address => bool_decide (address ≠ ACCEPTED_BOXES_ADDRESS)
  | _ => false
  end.

(** The quantity [start_production] settles on. *)
Definition requested_quantity (production_type : string) (custom_quantity : Z) : Z :=
  if String.eqb production_type "P1" then 10
  else if String.eqb production_type "P2" then 20
  else custom_quantity.

(** ** Sample inputs *)

(** A line on which nothing fails, at time [t] (in microseconds). *)
Definition calm (t : Z) : Env :=
  {| faults := []; clock := λ _, t; printer_ok := true;
     stamp := λ _, "20250101120000-AB12" |}.

(** The same line with the outcomes [outcomes] for its bus transactions. *)
Definition faulty (outcomes : list bool) (t : Z) : Env :=
  {| faults := outcomes; clock := λ _, t; printer_ok := true;
     stamp := λ _, "20250101120000-AB12" |}.

Definition sample_code (n total : Z) : QrCode :=
  {| unique_id := "Mar-Acm-20250101120000-AB12";
     qr_image := "static/qr_codes/Mar-Acm-20250101120000-AB12.png";
     box_number := n; total_boxes := total |}.

(** A run of two boxes whose first box passed proximity sensor 2 at time 0
    and waits for its scan. *)
Definition scanning_run : Production :=
  {| biscuit_type := "Marie"; brand := "Acme"; production_type := "custom";
     quantity := 2; qr_codes := [sample_code 1 2; sample_code 2 2];
     current_index := 0; accepted_boxes := 0; rejected_boxes := 0;
     start_time := 0; end_time := None; status := running;
     sensor_check_start := Some 0; waiting_for_proximity_1 := false;
     waiting_for_proximity_2 := false; waiting_for_qr := true;
     queued_box := Some false |}.

(** The same run after the timeout: stopped. *)
Definition stopped_run : Production :=
  set_status stopped (set_rejected_boxes 1 scanning_run).

(** A run of two boxes that waits for its first box at proximity sensor 1. *)
Definition arriving_run : Production :=
  set_waiting_for_proximity_1 true
    (set_waiting_for_qr false (set_sensor_check_start None scanning_run)).

(** A run of one box waiting for the scan of that box. *)
Definition last_box_run : Production :=
  set_qr_codes [sample_code 1 1]
    {| biscuit_type := "Marie"; brand := "Acme"; production_type := "custom";
       quantity := 1; qr_codes := []; current_index := 0; accepted_boxes := 0;
       rejected_boxes := 0; start_time := 0; end_time := None;
       status := running; sensor_check_start := Some 0;
       waiting_for_proximity_1 := false; waiting_for_proximity_2 := false;
       waiting_for_qr := true; queued_box := Some false |}.

(** The seven registers at 0, and at 0 except for the given ones. *)
Definition zero_registers : gmap Z Z :=
  list_to_map [(CONVEYOR_CONTROL_ADDRESS, 0); (PROXIMITY_SENSOR_1_ADDRESS, 0);
               (PROXIMITY_SENSOR_2_ADDRESS, 0); (QR_SCANNER_ADDRESS, 0);
               (ACCEPTED_BOXES_ADDRESS, 0); (PRODUCTION_COMPLETE_ADDRESS, 0);
               (BOX_STATUS_INDICATOR_ADDRESS, 0)].

Definition registers_with (values : list (Z * Z)) : gmap Z Z :=
  list_to_map values ∪ zero_registers.

Definition sys_of (p : Production) (values : list (Z * Z)) : Sys :=
  {| cookie := Some p; registers := registers_with values; print_log := [] |}.

(** A start request for [n] boxes. *)
Definition start_request (n : Z) : StartData :=
  {| sd_biscuit_type := Some "Marie"; sd_brand := Some "Acme";
     sd_production_type := Some "custom"; sd_custom_quantity := Some n |}.

(** One box is ordered and passes both sensors and the scanner; the write of
    the indicator fails once when the box is accepted, and the poll is
    repeated. *)
Definition one_box_with_a_failed_write : list (Event * Env) :=
  [ (StartProduction (start_request 1), calm 0);
    (Device CONVEYOR_CONTROL_ADDRESS 5, calm 0);
    (CheckProductionStatus, calm 1000000);
    (Device PROXIMITY_SENSOR_1_ADDRESS 1, calm 0);
    (CheckProductionStatus, calm 2000000);
    (Device PROXIMITY_SENSOR_2_ADDRESS 1, calm 0);
    (CheckProductionStatus, calm 3000000);
    (Device QR_SCANNER_ADDRESS 1, calm 0);
    (CheckProductionStatus,
     faulty [false; false; false; false; false; false; true] 4000000);
    (CheckProductionStatus, calm 4500000);
    (CheckProductionStatus, calm 5000000) ].

(** The same box on a line where nothing fails. *)
Definition one_box : list (Event * Env) :=
  [ (StartProduction (start_request 1), calm 0);
    (Device CONVEYOR_CONTROL_ADDRESS 5, calm 0);
    (CheckProductionStatus, calm 1000000);
    (Device PROXIMITY_SENSOR_1_ADDRESS 1, calm 0);
    (CheckProductionStatus, calm 2000000);
    (Device PROXIMITY_SENSOR_2_ADDRESS 1, calm 0);
    (CheckProductionStatus, calm 3000000);
    (Device QR_SCANNER_ADDRESS 1, calm 0);
    (CheckProductionStatus, calm 4000000);
    (CheckProductionStatus, calm 5000000) ].

(** The argument [restart_conveyor] gives to [generate_qr_code]. *)
Definition qr_data_of (p : Production) : QrData :=
  {| qd_biscuit_type := biscuit_type p; qd_brand := brand p;
     qd_production_type := production_type p; qd_quantity := quantity p |}.

(** ** A run in which every box is scanned *)

(** A request during which no bus transaction fails, the printer prints,
    and less than the scan window passes between its first two readings of
    the clock. *)
Definition smooth (e : Env) : Prop :=
  faults e = [] ∧ printer_ok e = true ∧ clock e 1 - clock e 0 < SCAN_WINDOW.

(** A start request is acknowledged by the line, and the acknowledgment is
    seen by a poll. *)
Definition conveyor_starts (data : StartData) (e0 e1 : Env) : list (Event * Env) :=
  [ (StartProduction data, e0);
    (Device CONVEYOR_CONTROL_ADDRESS 5, e1); (CheckProductionStatus, e1) ].

(** A box passes proximity sensor 1, proximity sensor 2 and the scanner,
    with a poll after each. *)
Definition box_passes (es : Env * Env * Env) : list (Event * Env) :=
  [ (Device PROXIMITY_SENSOR_1_ADDRESS 1, es.1.1); (CheckProductionStatus, es.1.1);
    (Device PROXIMITY_SENSOR_2_ADDRESS 1, es.1.2); (CheckProductionStatus, es.1.2);
    (Device QR_SCANNER_ADDRESS 1, es.2); (CheckProductionStatus, es.2) ].

(** The line waits for box [i] of [q] at proximity sensor 1: [i] boxes were
    accepted and printed, none rejected, and the registers of proximity
    sensor 2 and of the scanner are clear. *)
Definition waits_for_box (q i : Z) (y : Sys) : Prop :=
  ∃ p, cookie y = Some p ∧ wf_production p ∧ status p = running ∧
       sub_state p = Some AwaitingProximity1 ∧ quantity p = q ∧
       current_index p = i ∧ accepted_boxes p = i ∧ rejected_boxes p = 0 ∧
       registers y !!! ACCEPTED_BOXES_ADDRESS = i ∧
       registers y !!! PROXIMITY_SENSOR_2_ADDRESS = 0 ∧
       registers y !!! QR_SCANNER_ADDRESS = 0 ∧
       Z.of_nat (length (print_log y)) = i.

(** A whole run: the start, the boxes one after the other, and a last
    poll. *)
Definition whole_run (data : StartData) (e0 e1 : Env)
    (boxes : list (Env * Env * Env)) (e_end : Env) : list (Event * Env) :=
  conveyor_starts data e0 e1 ++ (boxes ≫= box_passes) ++
  [ (CheckProductionStatus, e_end) ].

Definition smooth_box (es : Env * Env * Env) : Prop :=
  smooth es.1.1 ∧ smooth es.1.2 ∧ smooth es.2.

(** ** The other handlers and the indicator thread *)

(** A request to a handler with a reply of any type: the reply, or the
    exception that escapes the handler, and what the request leaves. *)
Definition request {A} (handler : M A) (e : Env) (y : Sys) : Res A * Sys :=
  let '(r, s1) := handler (initial_store e y) in (r, final_sys y s1).

(** The dictionary [plc_status] of [production_summary]. *)
Record PlcStatus := {
  ps_conveyor : Z;
  ps_proximity_1 : Z;
  ps_proximity_2 : Z;
  ps_scanner : Z;
  ps_accepted_boxes : Z;
  ps_production_complete : Z;
  ps_box_status : Z
}.

(** The JSON documents [production_summary] answers with. *)
Inductive Summary :=
| SummaryData (production_data : Production) (plc_status : PlcStatus)
| SummaryError (error : string).

Definition production_summary : M (Summary * Z) :=
  try_except
    (present ← in_session;
     if negb present then mret (SummaryError "No production data", 400)
     else
       p ← production;
       conveyor ← read_plc_memory CONVEYOR_CONTROL_ADDRESS;
       proximity_1 ← read_plc_memory PROXIMITY_SENSOR_1_ADDRESS;
       proximity_2 ← read_plc_memory PROXIMITY_SENSOR_2_ADDRESS;
       scanner ← read_plc_memory QR_SCANNER_ADDRESS;
       accepted ← read_plc_memory ACCEPTED_BOXES_ADDRESS;
       production_complete ← read_plc_memory PRODUCTION_COMPLETE_ADDRESS;
       box_status ← read_plc_memory BOX_STATUS_INDICATOR_ADDRESS;
       mret (SummaryData p
               {| ps_conveyor := conveyor; ps_proximity_1 := proximity_1;
                  ps_proximity_2 := proximity_2; ps_scanner := scanner;
                  ps_accepted_boxes := accepted;
                  ps_production_complete := production_complete;
                  ps_box_status := box_status |}, 200))
    (λ _, mret (SummaryError "exception", 500)).

(** One turn of the loop of [control_indicator_lights] (the sleeps are not
    part of the store): the indicator is read and, when it shows a status,
    written back to 0; an exception is logged and the loop goes on. *)
Definition control_indicator_lights_turn : M unit :=
  try_except
    (box_status ← read_plc_memory BOX_STATUS_INDICATOR_ADDRESS;
     when (negb (box_status =? 0))
       (write_plc_memory BOX_STATUS_INDICATOR_ADDRESS 0))
    (λ _, pass).

(** The registers after a turn of the indicator thread on the registers
    [regs], with the outcomes [outcomes] of its bus transactions. *)
Definition indicator_turn (outcomes : list bool) (regs : gmap Z Z) : gmap Z Z :=
  plc (control_indicator_lights_turn
         {| session := None; modified := false; plc := regs; pending := outcomes;
            n_now := 0; n_stamp := 0; printed := [] |}).2.

(** *** The listing of [generate_pdf] *)

(** [l.index(x)]: the first position of an element equal to [x]; [None] is
    the [ValueError] of an [x] that is not in [l]. *)
Fixpoint list_index `{EqDecision A} (x : A) (l : list A) : option nat :=
  match l with
  | [] => None
  | a :: l' => if decide (a = x) then Some 0%nat else S <$> list_index x l'
  end.

(** A line [drawString(120, y_position, f"{unique_id} - {status}")] of the
    listing, with the page it is drawn on. *)
Record PdfLine := {
  line_page : nat;
  line_y : Z;
  line_id : string;
  line_status : string
}.

(** The loop [for qr_code in production['qr_codes']] of [generate_pdf] over
    the codes still to list, on page [page] at height [y_position]. *)
Fixpoint qr_code_lines (production : Production) (codes : list QrCode)
    (page : nat) (y_position : Z) : option (list PdfLine) :=
  match codes with
  | [] => Some []
  | qr_code :: rest =>
      i ← list_index qr_code (qr_codes production);
      let status := if Z.of_nat i <? accepted_boxes production
                    then "Accepted" else "Rejected" in
      let line := {| line_page := page; line_y := y_position;
                     line_id := unique_id qr_code; line_status := status |} in
      let y_position := y_position - 20 in
      lines ← (if y_position <? 50
               then qr_code_lines production rest (S page) 800
               else qr_code_lines production rest page y_position);
      Some (line :: lines)
  end.

(** The listing of the report: it starts at height 520 of the first page. *)
Definition generated_qr_codes (production : Production) : option (list PdfLine) :=
  qr_code_lines production (qr_codes production) 0 520.

(** Where the listing puts its [k]-th line (counted from 0): 24 lines on
    the first page from height 520 down, 38 on every later page from height
    800 down, 20 apart. *)
Definition listing_page (k : Z) : Z :=
  if k <? 24 then 0 else 1 + (k - 24) / 38.

Definition listing_y (k : Z) : Z :=
  if k <? 24 then 520 - 20 * k else 800 - 20 * ((k - 24) mod 38).

(** ** Reasoning about handlers *)

(** [wp m Q E s]: run from the store [s], [m] ends in a store satisfying [Q]
    if it returns and [E] if it raises. *)
Definition wp {A} (m : M A) (Q : A → St → Prop) (E : exn → St → Prop) (s : St) : Prop :=
  match m s with
  | (Ok a, s') => Q a s'
  | (Raise x, s') => E x s'
  end.

(** ** Rules, one for each primitive of a handler *)

Section rules.
Context {A : Type} (Q : A → St → Prop) (E : exn → St → Prop) (s : St).

Lemma wp_ret a : Q a s → wp (mret a) Q E s.
Proof. done. Qed.

Lemma wp_raise x : E x s → wp (raise x) Q E s.
Proof. done. Qed.

Lemma wp_bind {B} (m : M B) (f : B → M A) :
  wp m (λ b s', wp (f b) Q E s') E s → wp (m ≫= f) Q E s.
Proof. unfold wp, mbind, M_bind. by destruct (m s) as [[b|x] s']. Qed.

Lemma wp_try_except (body : M A) handler :
  wp body Q (λ x s', wp (handler x) Q E s') s → wp (try_except body handler) Q E s.
Proof. unfold wp, try_except. by destruct (body s) as [[b|x] s']. Qed.

Lemma wp_getitem (l : list A) i :
  (∀ x, py_index l i ≫= (l !!.) = Some x → Q x s) →
  (py_index l i ≫= (l !!.) = None → E IndexError s) →
  wp (getitem l i) Q E s.
Proof.
  intros HQ HE. unfold wp, getitem.
  destruct (py_index l i ≫= _) as [x|]; [by apply HQ | by apply HE].
Qed.

Lemma wp_setitem (l : list A) i x (Q' : list A → St → Prop) :
  (∀ k, py_index l i = Some k → Q' (<[k:=x]> l) s) →
  (py_index l i = None → E IndexError s) →
  wp (setitem l i x) Q' E s.
Proof.
  intros HQ HE. unfold wp, setitem.
  destruct (py_index l i) as [k|]; [by apply HQ | by apply HE].
Qed.
End rules.

Section rules_at.
Context (E : exn → St → Prop) (s : St).

Lemma wp_in_session Q :
  Q (bool_decide (is_Some (session s))) s → wp in_session Q E s.
Proof. done. Qed.

Lemma wp_in_session_some Q p :
  session s = Some p → Q true s → wp in_session Q E s.
Proof. unfold wp, in_session. by intros ->. Qed.

Lemma wp_in_session_none Q :
  session s = None → Q false s → wp in_session Q E s.
Proof. unfold wp, in_session. by intros ->. Qed.

Lemma wp_production Q p :
  session s = Some p → Q p s → wp production Q E s.
Proof. unfold wp, production. by intros ->. Qed.

Lemma wp_production_update Q f :
  Q tt (set_session (f <$> session s) s) → wp (production_update f) Q E s.
Proof. done. Qed.

Lemma wp_session_store Q :
  Q tt (set_modified true s) → wp session_store Q E s.
Proof. done. Qed.

Lemma wp_session_assign Q p :
  Q tt (set_modified true (set_session (Some p) s)) → wp (session_assign p) Q E s.
Proof. done. Qed.

Lemma wp_session_pop Q :
  Q tt (set_modified true (set_session None s)) → wp session_pop Q E s.
Proof. done. Qed.

Lemma wp_pass Q : Q tt s → wp pass Q E s.
Proof. done. Qed.

Lemma wp_when Q (b : bool) body :
  (b = true → wp body Q E s) → (b = false → Q tt s) → wp (when b body) Q E s.
Proof. intros Ht Hf. destruct b; [by apply Ht | by apply Hf]. Qed.

(** A transaction whatever the bus does: the faults still to come are
    forgotten. *)
Lemma wp_read_plc_memory Q address :
  (∀ l, E (PlcReadError address) (set_pending l s)) →
  (∀ l, Q (plc s !!! address) (set_pending l s)) →
  wp (read_plc_memory address) Q E s.
Proof.
  intros HE HQ. unfold wp, read_plc_memory, next_fault.
  destruct s as [o b R [|[] l] n k g]; cbn in *.
  - apply (HQ []).
  - apply (HE l).
  - apply (HQ l).
Qed.

Lemma wp_write_plc_memory Q address value :
  (∀ l, E (PlcWriteError address value) (set_pending l s)) →
  (∀ l, Q tt (set_plc (<[address:=value]> (plc s)) (set_pending l s))) →
  wp (write_plc_memory address value) Q E s.
Proof.
  intros HE HQ. unfold wp, write_plc_memory, next_fault.
  destruct s as [o b R [|[] l] n k g]; cbn in *.
  - apply (HQ []).
  - apply (HE l).
  - apply (HQ l).
Qed.

(** A transaction on a bus that does not fail. *)
Lemma wp_read_plc_memory_ok Q address :
  pending s = [] → Q (plc s !!! address) s → wp (read_plc_memory address) Q E s.
Proof. intros Hp HQ. unfold wp, read_plc_memory, next_fault. by rewrite Hp. Qed.

Lemma wp_write_plc_memory_ok Q address value :
  pending s = [] → Q tt (set_plc (<[address:=value]> (plc s)) s) →
  wp (write_plc_memory address value) Q E s.
Proof.
  intros Hp HQ. unfold wp, write_plc_memory, next_fault. rewrite Hp.
  by destruct s.
Qed.

Lemma wp_datetime_now Q e :
  Q (clock e (n_now s)) (set_n_now (S (n_now s)) s) → wp (datetime_now e) Q E s.
Proof. done. Qed.

Lemma wp_fromisoformat Q t :
  (∀ t0, t = Some t0 → Q t0 s) → (t = None → E TypeError s) →
  wp (fromisoformat t) Q E s.
Proof. intros HQ HE. destruct t as [t0|]; [by apply HQ | by apply HE]. Qed.

Lemma wp_print_qr_code_to_hp_printer Q e path :
  Q (printer_ok e) (set_printed (printed s ++ [path]) s) →
  wp (print_qr_code_to_hp_printer e path) Q E s.
Proof. done. Qed.
End rules_at.

Lemma generate_qr_codes_ok e qd indices s :
  ∃ codes, generate_qr_codes e qd indices s
           = (Ok codes, set_n_stamp (n_stamp s + length indices)%nat s)
         ∧ length codes = length indices.
Proof.
  revert s. induction indices as [|i rest IH]; intros s.
- exists []. split; [|done]. destruct s; cbn. unfold mret, M_ret, set_n_stamp; cbn.
  do 2 f_equal. lia.
- destruct (IH (set_n_stamp (S (n_stamp s)) s)) as (codes & Heq & Hlen).
  eexists. cbn [generate_qr_codes]. unfold mbind, M_bind, generate_qr_code.
  rewrite Heq. cbn. split.
  + unfold mret, M_ret. f_equal. destruct s; unfold set_n_stamp; cbn.
    f_equal. lia.
  + cbn. by rewrite Hlen.
Qed.

Lemma wp_generate_qr_codes Q E s e qd indices :
  (∀ codes, length codes = length indices →
   Q codes (set_n_stamp (n_stamp s + length indices)%nat s)) →
  wp (generate_qr_codes e qd indices) Q E s.
Proof.
intros HQ. unfold wp.
destruct (generate_qr_codes_ok e qd indices s) as (codes & -> & Hlen).
  by apply HQ.
Qed.

Lemma wp_generate_qr_code Q E s e qd i :
  Q (qr_code_for qd i (stamp e (n_stamp s))) (set_n_stamp (S (n_stamp s)) s) →
  wp (generate_qr_code e qd i) Q E s.
Proof. done. Qed.

(** What a request establishes follows from what its handler establishes
  from the initial store. *)
Lemma serve_wp (Φ : Response → Sys → Prop) handler e y :
  wp handler (λ r s1, Φ r (final_sys y s1))
   (λ _ s1, Φ (jsonify ∅ 500) (final_sys y s1)) (initial_store e y) →
  Φ (serve handler e y).1 (serve handler e y).2.
Proof. unfold wp, serve. by destruct (handler _) as [[r|x] s1]. Qed.

Ltac norm_store :=
  cbn [session modified plc pending n_now n_stamp printed
     set_session set_modified set_plc set_pending set_n_now set_n_stamp
     set_printed initial_store fmap option_fmap option_map
     biscuit_type brand production_type quantity qr_codes current_index
     accepted_boxes rejected_boxes start_time end_time status
     sensor_check_start waiting_for_proximity_1 waiting_for_proximity_2
     waiting_for_qr queued_box
     set_qr_codes set_current_index set_accepted_boxes set_rejected_boxes
     set_start_time set_end_time set_status set_sensor_check_start
     set_waiting_for_proximity_1 set_waiting_for_proximity_2
     set_waiting_for_qr set_queued_box get_queued_box default
     negb andb orb bool_decide].

Ltac norm_store_in H :=
  cbn [session modified plc pending n_now n_stamp printed
     set_session set_modified set_plc set_pending set_n_now set_n_stamp
     set_printed initial_store fmap option_fmap option_map
     biscuit_type brand production_type quantity qr_codes current_index
     accepted_boxes rejected_boxes start_time end_time status
     sensor_check_start waiting_for_proximity_1 waiting_for_proximity_2
     waiting_for_qr queued_box
     set_qr_codes set_current_index set_accepted_boxes set_rejected_boxes
     set_start_time set_end_time set_status set_sensor_check_start
     set_waiting_for_proximity_1 set_waiting_for_proximity_2
     set_waiting_for_qr set_queued_box get_queued_box default
     negb andb orb bool_decide] in H.

(** One step of a handler, on a bus that may fail. *)
Ltac wp_step_with read_rule write_rule :=
  lazymatch goal with
  | |- wp (mbind _ _) _ _ _ => apply wp_bind
  | |- wp (mret _) _ _ _ => apply wp_ret
  | |- wp (raise _) _ _ _ => apply wp_raise
  | |- wp pass _ _ _ => apply wp_pass
  | |- wp (try_except _ _) _ _ _ => apply wp_try_except
  | |- wp in_session _ _ _ =>
    first [ eapply wp_in_session_some; [reflexivity|]
          | apply wp_in_session_none; [reflexivity|]
          | apply wp_in_session ]
  | |- wp production _ _ _ => eapply wp_production; [reflexivity|]
  | |- wp (production_update _) _ _ _ => apply wp_production_update
  | |- wp session_store _ _ _ => apply wp_session_store
  | |- wp (session_assign _) _ _ _ => apply wp_session_assign
  | |- wp session_pop _ _ _ => apply wp_session_pop
  | |- wp (when _ _) _ _ _ => apply wp_when; intros ?
  | |- wp (read_plc_memory _) _ _ _ => read_rule
  | |- wp (write_plc_memory _ _) _ _ _ => write_rule
  | |- wp (datetime_now _) _ _ _ => apply wp_datetime_now
  | |- wp (fromisoformat _) _ _ _ => apply wp_fromisoformat; [intros ? ?|intros ?]
  | |- wp (print_qr_code_to_hp_printer _ _) _ _ _ =>
    apply wp_print_qr_code_to_hp_printer
  | |- wp (getitem _ _) _ _ _ => apply wp_getitem; [intros ? ?|intros ?]
  | |- wp (setitem _ _ _) _ _ _ => apply wp_setitem; [intros ? ?|intros ?]
  | |- wp (generate_qr_codes _ _ _) _ _ _ => apply wp_generate_qr_codes; intros ? ?
  | |- wp (generate_qr_code _ _ _) _ _ _ => apply wp_generate_qr_code
  | |- wp (if ?c then _ else _) _ _ _ => destruct c eqn:?
  | |- wp (match ?c with _ => _ end) _ _ _ => destruct c eqn:?
  | |- wp (error_reply _) _ _ _ => unfold error_reply
  | |- wp (system_error _) _ _ _ => unfold system_error
  end; norm_store.

Ltac wp_step :=
  wp_step_with
  ltac:(apply wp_read_plc_memory; intros ?)
  ltac:(apply wp_write_plc_memory; intros ?).

Ltac wp_step_ok :=
  wp_step_with
  ltac:(apply wp_read_plc_memory_ok; [reflexivity|])
  ltac:(apply wp_write_plc_memory_ok; [reflexivity|]).

Ltac bool_hyps :=
  repeat match goal with
  | H : (_ && _) = true |- _ => apply andb_true_iff in H; destruct H
  | H : negb _ = true |- _ => apply negb_true_iff in H
  | H : negb _ = false |- _ => apply negb_false_iff in H
  | H : (_ >=? _) = _ |- _ => rewrite Z.geb_leb in H
  | H : (_ <=? _) = true |- _ => apply Z.leb_le in H
  | H : (_ <=? _) = false |- _ => apply Z.leb_gt in H
  | H : (_ =? _) = true |- _ => apply Z.eqb_eq in H
  | H : (_ =? _) = false |- _ => apply Z.eqb_neq in H
  | H : bool_decide _ = true |- _ => apply bool_decide_eq_true in H
  | H : bool_decide _ = false |- _ => apply bool_decide_eq_false in H
  end.

Ltac destruct_production p :=
  let f1 := fresh "wp1" in let f2 := fresh "wp2" in let f3 := fresh "wfq" in
destruct p as [? ? ? ? ? ? ? ? ? ? ? ? f1 f2 f3 ?].

Ltac unfold_poll :=
unfold check_production_status, check_production_status_try, running_branch,
  qr_scanning, queued_box_or_proximity_2, automatic_printing, box_accepted,
  box_rejected, production_completion, waiting_for_conveyor_branch.

Ltac unfold_handlers :=
unfold start_production, start_run, restart_conveyor, simulate_conveyor_start,
  activate_scanner, reset_production, reset_plc_memory.

(** ** Well-formed records *)

Ltac wf_hyp H :=
unfold wf_production in H; norm_store_in H;
destruct H as ((? & ?) & ? & ? & ? & ? & ? & ?).

Ltac wf_leaf :=
unfold wf_sys, final_sys; norm_store; cbn [cookie];
  try done;
  try (intros ? [= <-]; unfold wf_production; norm_store;
     bool_hyps; rewrite ?length_insert, ?length_seqZ in *;
     repeat split; try lia; try (intros; congruence); try tauto; eauto).

Lemma poll_wf e y : wf_sys y → wf_sys (poll e y).2.
Proof.
intros Hwf. unfold poll.
  apply (serve_wp (λ _ y', wf_sys y')).
destruct y as [[p|] regs lg]; unfold initial_store; cbn [cookie registers print_log].
- specialize (Hwf p eq_refl). destruct_production p. wf_hyp Hwf.
  unfold_poll. repeat wp_step. all: wf_leaf.
- unfold_poll. repeat wp_step. all: wf_leaf.
Qed.

Lemma start_production_wf e data y :
  wf_sys y → wf_sys (serve (start_production e data) e y).2.
Proof.
  intros Hwf.
  apply (serve_wp (λ _ y', wf_sys y')).
  destruct y as [c regs lg]; unfold initial_store; cbn [cookie registers print_log].
  unfold_handlers. destruct data as [[bt|] [br|] [pt|] [cq|]]; cbn [sd_biscuit_type sd_brand sd_production_type sd_custom_quantity].
  all: repeat wp_step.
  all: wf_leaf.
Qed.

Lemma restart_conveyor_wf e y :
  wf_sys y → wf_sys (serve (restart_conveyor e) e y).2.
Proof.
  intros Hwf.
  apply (serve_wp (λ _ y', wf_sys y')).
  destruct y as [[p|] regs lg]; unfold initial_store; cbn [cookie registers print_log].
  - specialize (Hwf p eq_refl). destruct_production p. wf_hyp Hwf.
    unfold_handlers. repeat wp_step. 
  all: wf_leaf.
  - unfold_handlers. repeat wp_step. all: wf_leaf.
Qed.

Lemma simulate_conveyor_start_wf e y :
  wf_sys y → wf_sys (serve simulate_conveyor_start e y).2.
Proof.
  intros Hwf.
  apply (serve_wp (λ _ y', wf_sys y')).
  destruct y as [[p|] regs lg]; unfold initial_store; cbn [cookie registers print_log].
  - specialize (Hwf p eq_refl). destruct_production p. wf_hyp Hwf.
    unfold_handlers. repeat wp_step. all: wf_leaf.
  - unfold_handlers. repeat wp_step. all: wf_leaf.
Qed.

Lemma activate_scanner_wf e y :
  wf_sys y → wf_sys (serve activate_scanner e y).2.
Proof.
  intros Hwf.
  apply (serve_wp (λ _ y', wf_sys y')).
  destruct y as [c regs lg]; unfold initial_store; cbn [cookie registers print_log].
  unfold_handlers. repeat wp_step. all: wf_leaf.
Qed.

Lemma reset_production_wf e y :
  wf_sys y → wf_sys (serve reset_production e y).2.
Proof.
  intros Hwf.
  apply (serve_wp (λ _ y', wf_sys y')).
  destruct y as [c regs lg]; unfold initial_store; cbn [cookie registers print_log].
  unfold_handlers. repeat wp_step. all: wf_leaf.
Qed.

Lemma step_wf y ev : wf_sys y → wf_sys (step y ev).
Proof.
  destruct ev as [[data| | | | | |a v] e]; cbn [step].
  - apply start_production_wf.
  - apply poll_wf.
  - apply restart_conveyor_wf.
  - apply simulate_conveyor_start_wf.
  - apply activate_scanner_wf.
  - apply reset_production_wf.
  - done.
Qed.

Lemma run_wf_from y trace : wf_sys y → wf_sys (run y trace).
Proof.
  revert y. induction trace as [|ev trace IH]; intros y Hwf; [done|].
  apply IH, step_wf, Hwf.
Qed.

Lemma run_wf regs trace : wf_sys (run (idle regs) trace).
Proof. apply run_wf_from. by intros p. Qed.

(** ** The counters on an undisturbed line *)

(* lookups in registers after writes at known addresses *)
Ltac regs :=
  repeat first
    [ rewrite lookup_total_insert_eq
    | rewrite lookup_total_insert_ne by (by vm_compute) ].

Ltac counters_leaf :=
  unfold counters_agree, final_sys; norm_store; cbn [cookie registers];
  try done;
  try (intros ? [= <-]; norm_store; regs; repeat split; lia || eauto).

Lemma poll_counters e y :
  faults e = [] → counters_agree y → counters_agree (poll e y).2.
Proof.
  intros Hf Hc. unfold poll.
  apply (serve_wp (λ _ y', counters_agree y')).
  destruct y as [[p|] regs lg]; unfold initial_store; cbn [cookie registers print_log];
    rewrite Hf.
  - destruct (Hc p eq_refl) as [Ha Hr]. destruct_production p.
    norm_store_in Ha. norm_store_in Hr. cbn [registers] in Hr.
    unfold_poll. repeat wp_step_ok. all: counters_leaf.
  - unfold_poll. repeat wp_step_ok. all: counters_leaf.
Qed.

Lemma start_production_counters e data y :
  faults e = [] → counters_agree y →
  counters_agree (serve (start_production e data) e y).2.
Proof.
  intros Hf Hc.
  apply (serve_wp (λ _ y', counters_agree y')).
  destruct y as [c regs lg]; unfold initial_store; cbn [cookie registers print_log];
    rewrite Hf.
  unfold_handlers.
  destruct data as [[bt|] [br|] [pt|] [cq|]];
    cbn [sd_biscuit_type sd_brand sd_production_type sd_custom_quantity].
  all: repeat wp_step_ok. all: counters_leaf.
Qed.

Lemma restart_conveyor_counters e y :
  faults e = [] → counters_agree y →
  counters_agree (serve (restart_conveyor e) e y).2.
Proof.
  intros Hf Hc.
  apply (serve_wp (λ _ y', counters_agree y')).
  destruct y as [[p|] regs lg]; unfold initial_store; cbn [cookie registers print_log];
    rewrite Hf.
  - destruct (Hc p eq_refl) as [Ha Hr]. destruct_production p.
    norm_store_in Ha. norm_store_in Hr. cbn [registers] in Hr.
    unfold_handlers. repeat wp_step_ok. all: counters_leaf.
  - unfold_handlers. repeat wp_step_ok. all: counters_leaf.
Qed.

Lemma simulate_conveyor_start_counters e y :
  faults e = [] → counters_agree y →
  counters_agree (serve simulate_conveyor_start e y).2.
Proof.
  intros Hf Hc.
  apply (serve_wp (λ _ y', counters_agree y')).
  destruct y as [[p|] regs lg]; unfold initial_store; cbn [cookie registers print_log];
    rewrite Hf.
  - destruct (Hc p eq_refl) as [Ha Hr]. destruct_production p.
    norm_store_in Ha. norm_store_in Hr. cbn [registers] in Hr.
    unfold_handlers. repeat wp_step_ok. all: counters_leaf.
  - unfold_handlers. repeat wp_step_ok. all: counters_leaf.
Qed.

Lemma activate_scanner_counters e y :
  faults e = [] → counters_agree y →
  counters_agree (serve activate_scanner e y).2.
Proof.
  intros Hf Hc.
  apply (serve_wp (λ _ y', counters_agree y')).
  destruct y as [[p|] regs lg]; unfold initial_store; cbn [cookie registers print_log];
    rewrite Hf.
  - destruct (Hc p eq_refl) as [Ha Hr].
    unfold_handlers. repeat wp_step_ok. all: counters_leaf.
  - unfold_handlers. repeat wp_step_ok. all: counters_leaf.
Qed.

Lemma reset_production_counters e y :
  faults e = [] → counters_agree y →
  counters_agree (serve reset_production e y).2.
Proof.
  intros Hf Hc.
  apply (serve_wp (λ _ y', counters_agree y')).
  destruct y as [[p|] regs lg]; unfold initial_store; cbn [cookie registers print_log];
    rewrite Hf.
  - destruct (Hc p eq_refl) as [Ha Hr].
    unfold_handlers. repeat wp_step_ok. all: counters_leaf.
  - unfold_handlers. repeat wp_step_ok. all: counters_leaf.
Qed.

Lemma step_counters y ev :
  undisturbed ev → counters_agree y → counters_agree (step y ev).
Proof.
  destruct ev as [[data| | | | | |a v] e]; intros [Hf Hd]; cbn [step];
    cbn [fst snd] in Hf, Hd.
  - by apply start_production_counters.
  - by apply poll_counters.
  - by apply restart_conveyor_counters.
  - by apply simulate_conveyor_start_counters.
  - by apply activate_scanner_counters.
  - by apply reset_production_counters.
  - intros Hc p Hp. destruct (Hc p Hp) as [Ha Hr]. split; [done|].
    cbn [registers]. by rewrite lookup_total_insert_ne.
Qed.

Lemma run_counters_from y trace :
  Forall undisturbed trace → counters_agree y → counters_agree (run y trace).
Proof.
  revert y. induction trace as [|ev trace IH]; intros y Hu Hc; [done|].
  inversion Hu; subst. apply IH; [done|]. by apply step_counters.
Qed.

Lemma run_counters regs trace :
  Forall undisturbed trace → counters_agree (run (idle regs) trace).
Proof. intros Hu. apply run_counters_from; [done|]. by intros p. Qed.


(** ** The counters of a completed run *)





(** ** The scan window *)

Lemma update_lookup_first k v kvs (m : gmap string JVal) :
  update ((k, v) :: kvs) m !! k = Some v.
Proof.
  unfold update, dict. cbn [list_to_map foldr].
  apply lookup_union_Some_l. cbn. apply lookup_insert_eq.
Qed.

(* a record in sub-state AwaitingScan, field by field *)
Ltac awaiting_scan p Hwf Hsub :=
  destruct_production p; wf_hyp Hwf;
  unfold sub_state in Hsub; norm_store_in Hsub;
  match type of Hsub with
  | (if ?a then _ else if ?b then _ else if ?c then _ else _) = _ =>
      destruct a; [|by destruct b, c]
  end;
  match goal with
  | H : true = true → _ |- _ => destruct (H eq_refl) as (-> & ? & ?); clear H
  end.

Ltac state_leaf :=
  unfold final_sys; norm_store; cbn [cookie registers http body];
  bool_hyps; simplify_eq;
  first
    [ by (exfalso; first [lia | congruence])
    | eexists; split; [reflexivity|]; norm_store; regs;
      repeat split; first [done | lia | idtac] ].

(** C2: a poll on which no bus transaction fails finds a running record in
    sub-state AwaitingScan, the scanner register is not at 1, and at least
    [SCAN_WINDOW] (5 seconds) have passed since [sensor_check_start].  Then
    the rejected count goes up by one, the indicator register is written with
    2 (rejected), conveyor control is written with 0, the status becomes
    stopped, and [current_index], the accepted count and the sub-state stay
    as they were: the box is still the current one until a restart. *)
Theorem timeout_rejects (e : Env) (y : Sys) (p : Production) (check_start : Z) :
  cookie y = Some p → wf_production p → status p = running →
  sub_state p = Some AwaitingScan → sensor_check_start p = Some check_start →
  faults e = [] → registers y !!! QR_SCANNER_ADDRESS ≠ 1 →
  SCAN_WINDOW ≤ clock e 0 - check_start →
  ∃ p', cookie (poll e y).2 = Some p' ∧
        rejected_boxes p' = rejected_boxes p + 1 ∧
        registers (poll e y).2 !!! BOX_STATUS_INDICATOR_ADDRESS = 2 ∧
        registers (poll e y).2 !!! CONVEYOR_CONTROL_ADDRESS = 0 ∧
        status p' = stopped ∧
        current_index p' = current_index p ∧
        accepted_boxes p' = accepted_boxes p ∧
        sub_state p' = Some AwaitingScan.
Proof.
  intros Hp Hwf Hst Hsub Hcs Hf Hqr Hlate. unfold poll.
  apply (serve_wp (λ _ y', ∃ p', cookie y' = Some p' ∧
        rejected_boxes p' = rejected_boxes p + 1 ∧
        registers y' !!! BOX_STATUS_INDICATOR_ADDRESS = 2 ∧
        registers y' !!! CONVEYOR_CONTROL_ADDRESS = 0 ∧
        status p' = stopped ∧ current_index p' = current_index p ∧
        accepted_boxes p' = accepted_boxes p ∧
        sub_state p' = Some AwaitingScan)).
  destruct y as [c regs lg]; cbn [cookie registers] in Hp, Hqr; subst c.
  unfold initial_store; cbn [cookie registers print_log]; rewrite Hf.
  awaiting_scan p Hwf Hsub. norm_store_in Hst. norm_store_in Hcs. subst.
  unfold_poll. repeat wp_step_ok.
  all: state_leaf.
Qed.

(** The sample records are well formed. *)
Lemma scanning_run_wf : wf_production scanning_run.
Proof. unfold wf_production. vm_compute. repeat split; try congruence; eauto. Qed.

(** The first box of [scanning_run], polled 5 seconds after its deadline was
    set. *)
Lemma timeout_rejects_witness :
  ∃ p', cookie (poll (calm 5000000) (sys_of scanning_run [])).2 = Some p' ∧
        rejected_boxes p' = 1 ∧ status p' = stopped ∧ current_index p' = 0.
Proof.
  destruct (timeout_rejects (calm 5000000) (sys_of scanning_run []) scanning_run 0
              eq_refl scanning_run_wf eq_refl eq_refl eq_refl eq_refl
              ltac:(vm_compute; congruence) ltac:(vm_compute; congruence))
    as (p' & Hp' & Hr & _ & _ & Hs & Hi & _).
  exists p'. repeat split; [exact Hp' | by rewrite Hr | exact Hs | by rewrite Hi].
Defined.

(** C4: a poll on which no bus transaction fails finds a running record in
    sub-state AwaitingScan and the scanner register at 1.  Whatever time has
    passed since [sensor_check_start], also 5 seconds or more, the box is
    accepted: [current_index] advances by one, the accepted counter register
    goes up by one and the accepted count of the record is that new value
    (the old count plus one when record and register agreed), the indicator
    is written with 1 (accepted), no rejection is counted and the run stays
    running. *)
Theorem scan_before_timeout (e : Env) (y : Sys) (p : Production) :
  cookie y = Some p → wf_production p → status p = running →
  sub_state p = Some AwaitingScan →
  faults e = [] → registers y !!! QR_SCANNER_ADDRESS = 1 →
  ∃ p', cookie (poll e y).2 = Some p' ∧
        current_index p' = current_index p + 1 ∧
        accepted_boxes p' = registers y !!! ACCEPTED_BOXES_ADDRESS + 1 ∧
        registers (poll e y).2 !!! ACCEPTED_BOXES_ADDRESS
          = registers y !!! ACCEPTED_BOXES_ADDRESS + 1 ∧
        (accepted_boxes p = registers y !!! ACCEPTED_BOXES_ADDRESS →
           accepted_boxes p' = accepted_boxes p + 1) ∧
        registers (poll e y).2 !!! BOX_STATUS_INDICATOR_ADDRESS = 1 ∧
        rejected_boxes p' = rejected_boxes p ∧
        status p' = running.
Proof.
  intros Hp Hwf Hst Hsub Hf Hqr. unfold poll.
  apply (serve_wp (λ _ y', ∃ p', cookie y' = Some p' ∧
        current_index p' = current_index p + 1 ∧
        accepted_boxes p' = registers y !!! ACCEPTED_BOXES_ADDRESS + 1 ∧
        registers y' !!! ACCEPTED_BOXES_ADDRESS
          = registers y !!! ACCEPTED_BOXES_ADDRESS + 1 ∧
        (accepted_boxes p = registers y !!! ACCEPTED_BOXES_ADDRESS →
           accepted_boxes p' = accepted_boxes p + 1) ∧
        registers y' !!! BOX_STATUS_INDICATOR_ADDRESS = 1 ∧
        rejected_boxes p' = rejected_boxes p ∧
        status p' = running)).
  destruct y as [c regs lg]; cbn [cookie registers] in Hp, Hqr |- *; subst c.
  unfold initial_store; cbn [cookie registers print_log]; rewrite Hf.
  awaiting_scan p Hwf Hsub. norm_store_in Hst. subst.
  unfold_poll. repeat wp_step_ok.
  all: state_leaf.
Qed.

(** A scan seen 9 seconds after the deadline was set is an acceptance. *)
Lemma scan_before_timeout_witness :
  ∃ p', cookie (poll (calm 9000000)
                  (sys_of scanning_run [(QR_SCANNER_ADDRESS, 1)])).2 = Some p' ∧
        current_index p' = 1 ∧ accepted_boxes p' = 1 ∧ status p' = running.
Proof.
  destruct (scan_before_timeout (calm 9000000)
              (sys_of scanning_run [(QR_SCANNER_ADDRESS, 1)]) scanning_run
              eq_refl scanning_run_wf eq_refl eq_refl eq_refl eq_refl)
    as (p' & Hp' & Hi & Ha & _ & _ & _ & _ & Hs).
  exists p'. repeat split; [exact Hp' | by rewrite Hi | by rewrite Ha | exact Hs].
Defined.

(** ** Repeated polls *)









(** ** Indexing *)

Lemma py_index_nonneg {A} (l : list A) i k :
  0 ≤ i → py_index l i = Some k → k = Z.to_nat i ∧ i < Z.of_nat (length l).
Proof.
  unfold py_index. intros Hi.
  case_bool_decide; [intros [= <-]; lia|].
  case_bool_decide; [lia | done].
Qed.

Lemma getitem_Some_lt {A} (l : list A) i x :
  py_index l i ≫= (l !!.) = Some x → 0 ≤ i → i < Z.of_nat (length l).
Proof.
  intros Hx Hi. destruct (py_index l i) as [k|] eqn:Hk; [|done].
  by destruct (py_index_nonneg l i k Hi Hk).
Qed.

Lemma getitem_None_ge {A} (l : list A) i :
  py_index l i ≫= (l !!.) = None → 0 ≤ i → Z.of_nat (length l) ≤ i.
Proof.
  unfold py_index. intros Hx Hi.
  case_bool_decide as Hin; [|lia].
  cbn in Hx. apply lookup_ge_None in Hx. lia.
Qed.

Lemma py_index_None_ge {A} (l : list A) i :
  py_index l i = None → 0 ≤ i → Z.of_nat (length l) ≤ i.
Proof.
  unfold py_index. intros Hx Hi. case_bool_decide as Hin; [done | lia].
Qed.

Lemma py_index_length {A} (l : list A) i :
  i = Z.of_nat (length l) → py_index l i = None.
Proof.
  intros ->. unfold py_index.
  case_bool_decide; [lia|]. case_bool_decide; [lia | done].
Qed.

Lemma system_error_status :
  dict [("error", JStr "System error"); ("status", JStr "error")] !! "status"
  = Some (JStr "error").
Proof. by vm_compute. Qed.

(* facts about indices found along the way *)
Ltac index_hyps :=
  repeat match goal with
  | H : ?a = ?a → _ |- _ => specialize (H eq_refl)
  | H : py_index ?l ?i ≫= _ = None |- _ =>
      apply getitem_None_ge in H; [|lia]
  | H : py_index ?l ?i = None |- _ =>
      apply py_index_None_ge in H; [|lia]
  | H : py_index ?l ?i ≫= _ = Some _ |- _ =>
      apply getitem_Some_lt in H; [|lia]
  | H : py_index ?l ?i = Some ?k |- _ =>
      apply py_index_nonneg in H; [destruct H as [-> ?]|lia]
  end.

Ltac reply_leaf :=
  unfold final_sys; norm_store; cbn [cookie registers print_log http body jsonify];
  bool_hyps; simplify_eq; index_hyps;
  rewrite ?update_lookup_first, ?system_error_status.

(** ** Overlap *)

(** C5, evaluated on the code.  The first box of [scanning_run] waits for
    its scan when proximity sensor 1 fires: the poll sets the latch
    [queued_box] and prints nothing.  The scanner then reads the box, and the
    poll that accepts it clears the latch in the same update that advances
    the index, before the latch is consulted: the next box is in sub-state
    AwaitingProximity1, not AwaitingProximity2, and the proximity sensor 1
    register is left at 1. *)
Lemma overlap_latch_dropped :
  let y0 := sys_of scanning_run [(PROXIMITY_SENSOR_1_ADDRESS, 1)] in
  let y1 := (poll (calm 1000000) y0).2 in
  let y2 := (poll (calm 2000000) (step y1 (Device QR_SCANNER_ADDRESS 1, calm 0))).2 in
  pending_overlap <$> cookie y1 = Some true ∧
  print_log y1 = [] ∧
  current_index <$> cookie y2 = Some 1 ∧
  pending_overlap <$> cookie y2 = Some false ∧
  sub_state <$> cookie y2 = Some (Some AwaitingProximity1) ∧
  registers y2 !!! PROXIMITY_SENSOR_1_ADDRESS = 1.
Proof. by vm_compute. Qed.

(** ** Start *)

(** C6 as stated does not hold: a start request for 3 boxes during a running
    run is answered with 200 and replaces the run with a new one. *)
Lemma start_replaces_active_run :
  let y := sys_of scanning_run [] in
  let r := serve (start_production (calm 0) (start_request 3)) (calm 0) y in
  status <$> cookie y = Some running ∧
  http r.1 = 200 ∧
  quantity <$> cookie r.2 = Some 3 ∧
  status <$> cookie r.2 = Some waiting_for_conveyor.
Proof. by vm_compute. Qed.

(** C6 (amended): a start request whose quantity ([10] for type P1, [20]
    for P2, the custom quantity otherwise) is not positive is answered with
    400 and changes neither the session nor the registers, whatever the bus
    does.  A start request answered with 200 leaves a run record with
    exactly [quantity] codes, that positive quantity being the one requested,
    [current_index = 0], no box accepted or rejected, status waiting for the
    conveyor and sub-state AwaitingProximity1.  Whether a run is active
    plays no part. *)
Theorem start_production_spec (e : Env) (data : StartData) (y : Sys) :
  (∀ pt cq, sd_production_type data = Some pt → sd_custom_quantity data = Some cq →
     requested_quantity pt cq ≤ 0 →
     http (serve (start_production e data) e y).1 = 400 ∧
     (serve (start_production e data) e y).2 = y) ∧
  (http (serve (start_production e data) e y).1 = 200 →
     ∃ p, cookie (serve (start_production e data) e y).2 = Some p ∧
          0 < quantity p ∧
          Z.of_nat (length (qr_codes p)) = quantity p ∧
          (∀ pt cq, sd_production_type data = Some pt →
             sd_custom_quantity data = Some cq →
             quantity p = requested_quantity pt cq) ∧
          current_index p = 0 ∧ accepted_boxes p = 0 ∧ rejected_boxes p = 0 ∧
          status p = waiting_for_conveyor ∧
          sub_state p = Some AwaitingProximity1).
Proof.
  apply (serve_wp (λ r y',
    (∀ pt cq, sd_production_type data = Some pt → sd_custom_quantity data = Some cq →
       requested_quantity pt cq ≤ 0 → http r = 400 ∧ y' = y) ∧
    (http r = 200 →
       ∃ p, cookie y' = Some p ∧ 0 < quantity p ∧
            Z.of_nat (length (qr_codes p)) = quantity p ∧
            (∀ pt cq, sd_production_type data = Some pt →
               sd_custom_quantity data = Some cq →
               quantity p = requested_quantity pt cq) ∧
            current_index p = 0 ∧ accepted_boxes p = 0 ∧ rejected_boxes p = 0 ∧
            status p = waiting_for_conveyor ∧
            sub_state p = Some AwaitingProximity1))).
  destruct y as [c regs lg]; unfold initial_store; cbn [cookie registers print_log].
  unfold_handlers.
  destruct data as [[bt|] [br|] [pt|] [cq|]];
    cbn [sd_biscuit_type sd_brand sd_production_type sd_custom_quantity].
  all: repeat wp_step.
  all: unfold final_sys; norm_store; cbn [cookie registers print_log http jsonify].
  all: (split;
    [ intros pt' cq' Hpt Hcq Hq; simplify_eq; unfold requested_quantity in Hq;
      repeat match goal with H : String.eqb _ _ = _ |- _ => rewrite H in Hq end;
      bool_hyps; first [lia | done]
    | intros Hok; first [discriminate Hok | idtac] ]).
  all: eexists; split; [reflexivity|]; norm_store; rewrite length_seqZ in *;
    bool_hyps; repeat split; try lia.
  all: intros pt' cq' [= <-] [= <-]; unfold requested_quantity;
    repeat match goal with H : String.eqb _ _ = _ |- _ => rewrite H end; done.
Qed.

(** A request for no box and a request for three. *)
Lemma start_production_spec_witness :
  http (serve (start_production (calm 0) (start_request 0)) (calm 0)
          (idle zero_registers)).1 = 400 ∧
  ∃ p, cookie (serve (start_production (calm 0) (start_request 3)) (calm 0)
                 (idle zero_registers)).2 = Some p ∧
       Z.of_nat (length (qr_codes p)) = quantity p ∧ current_index p = 0.
Proof.
  split.
  - by destruct (proj1 (start_production_spec (calm 0) (start_request 0)
                          (idle zero_registers)) "custom" 0 eq_refl eq_refl
                   ltac:(by vm_compute)) as [H _].
  - destruct (proj2 (start_production_spec (calm 0) (start_request 3)
                       (idle zero_registers)) ltac:(by vm_compute))
      as (p & Hp & _ & Hlen & _ & Hi & _).
    by exists p.
Defined.

(** ** Bus failures *)

(** C7 as stated does not hold: a box arrives at proximity sensor 1, its
    code is printed and the step to AwaitingProximity2 is stored in the
    session; the write that clears the sensor register then fails.  The poll
    is answered with 500 and the record has changed. *)
Lemma failed_clear_keeps_transition :
  let y := sys_of arriving_run [(PROXIMITY_SENSOR_1_ADDRESS, 1)] in
  let e := faulty [false; false; false; false; true] 1000000 in
  (check_production_status_try e (initial_store e y)).1
    = Raise (PlcWriteError PROXIMITY_SENSOR_1_ADDRESS 0) ∧
  http (poll e y).1 = 500 ∧
  sub_state <$> cookie y = Some (Some AwaitingProximity1) ∧
  sub_state <$> cookie (poll e y).2 = Some (Some AwaitingProximity2) ∧
  cookie (poll e y).2 ≠ cookie y.
Proof. vm_compute. repeat split; congruence. Qed.

(** What a poll that raises leaves of the session. *)
Lemma poll_raises e y x :
  (check_production_status_try e (initial_store e y)).1 = Raise x →
  (poll e y).1 = jsonify (dict [("error", JStr "System error");
                                ("status", JStr "error")]) 500 ∧
  (poll e y).2 = final_sys y (check_production_status_try e (initial_store e y)).2.
Proof.
  unfold poll, serve, check_production_status, try_except.
  destruct (check_production_status_try e (initial_store e y)) as [[r|x'] s1].
  - done.
  - by intros [= ->].
Qed.

Lemma poll_bus_failure_unmodified e y :
  wp (check_production_status_try e) (λ _ _, True)
     (λ x s1, is_plc_error x = true →
        is_sensor_read_error x = true ∨
        (∀ p, cookie y = Some p → status p ≠ running) →
        modified s1 = false)
     (initial_store e y).
Proof.
  destruct y as [[p|] regs lg]; unfold initial_store; cbn [cookie registers print_log].
  - destruct_production p. unfold_poll. repeat wp_step.
    all: try done.
    all: intros Hplc [Hr|Hn]; first
      [ done | discriminate Hplc | by vm_compute in Hr
      | by specialize (Hn _ eq_refl) ].
  - unfold_poll. repeat wp_step. all: done.
Qed.

(** C7 (amended): a poll during which a bus read or write fails is answered
    with HTTP 500 and status [error].  The run record after it is the record
    before it when the failing transaction is a read of conveyor control, of
    a proximity sensor or of the scanner, or when the run is not running. *)
Theorem bus_failure_aborts (e : Env) (y : Sys) (x : exn) :
  (check_production_status_try e (initial_store e y)).1 = Raise x →
  is_plc_error x = true →
  http (poll e y).1 = 500 ∧
  body (poll e y).1 !! "status" = Some (JStr "error") ∧
  (is_sensor_read_error x = true ∨
   (∀ p, cookie y = Some p → status p ≠ running) →
   cookie (poll e y).2 = cookie y).
Proof.
  intros Hx Hplc. destruct (poll_raises e y x Hx) as [-> ->].
  split; [done|]. split; [by vm_compute|]. intros Hwhen.
  pose proof (poll_bus_failure_unmodified e y) as Hwp. unfold wp in Hwp.
  destruct (check_production_status_try e (initial_store e y)) as [[r|x'] s1];
    cbn [fst snd] in *; [done|]. injection Hx as ->.
  unfold final_sys; cbn [cookie]. by rewrite (Hwp Hplc Hwhen).
Qed.

(** The read of proximity sensor 1 fails. *)
Lemma bus_failure_aborts_witness :
  let y := sys_of arriving_run [(PROXIMITY_SENSOR_1_ADDRESS, 1)] in
  let e := faulty [false; true] 1000000 in
  http (poll e y).1 = 500 ∧ cookie (poll e y).2 = cookie y.
Proof.
  intros y e.
  destruct (bus_failure_aborts e y (PlcReadError PROXIMITY_SENSOR_1_ADDRESS)
              ltac:(by vm_compute) eq_refl) as (H1 & _ & H3).
  split; [exact H1|]. apply H3. left. by vm_compute.
Defined.

(** ** Restart and reset *)


(** C8: for a stopped run, on a bus that does not fail, a restart is
    answered with 200; it replaces the code at [current_index] in the code
    sequence with a newly generated one, writes 0 to the registers of both
    proximity sensors, the scanner and the indicator, writes 1 to conveyor
    control, and leaves the run running in sub-state AwaitingProximity1 with
    its index and counts as they were.  When there is no stopped run the
    restart is answered with 400 and changes neither the session nor the
    registers, whatever the bus does. *)
Theorem restart_conveyor_spec (e : Env) (y : Sys) :
  (∀ p, cookie y = Some p → wf_production p → status p = stopped →
        faults e = [] →
     http (serve (restart_conveyor e) e y).1 = 200 ∧
     registers (serve (restart_conveyor e) e y).2 !!! PROXIMITY_SENSOR_1_ADDRESS = 0 ∧
     registers (serve (restart_conveyor e) e y).2 !!! PROXIMITY_SENSOR_2_ADDRESS = 0 ∧
     registers (serve (restart_conveyor e) e y).2 !!! QR_SCANNER_ADDRESS = 0 ∧
     registers (serve (restart_conveyor e) e y).2 !!! BOX_STATUS_INDICATOR_ADDRESS = 0 ∧
     registers (serve (restart_conveyor e) e y).2 !!! CONVEYOR_CONTROL_ADDRESS = 1 ∧
     ∃ p', cookie (serve (restart_conveyor e) e y).2 = Some p' ∧
           qr_codes p' = <[Z.to_nat (current_index p) :=
                             qr_code_for (qr_data_of p) (current_index p) (stamp e 0)]>
                           (qr_codes p) ∧
           status p' = running ∧
           sub_state p' = Some AwaitingProximity1 ∧
           current_index p' = current_index p ∧
           accepted_boxes p' = accepted_boxes p ∧
           rejected_boxes p' = rejected_boxes p) ∧
  ((∀ p, cookie y = Some p → status p ≠ stopped) →
     http (serve (restart_conveyor e) e y).1 = 400 ∧
     (serve (restart_conveyor e) e y).2 = y).
Proof.
  split.
  - intros p Hp Hwf Hst Hf.
    apply (serve_wp (λ r y', http r = 200 ∧
      registers y' !!! PROXIMITY_SENSOR_1_ADDRESS = 0 ∧
      registers y' !!! PROXIMITY_SENSOR_2_ADDRESS = 0 ∧
      registers y' !!! QR_SCANNER_ADDRESS = 0 ∧
      registers y' !!! BOX_STATUS_INDICATOR_ADDRESS = 0 ∧
      registers y' !!! CONVEYOR_CONTROL_ADDRESS = 1 ∧
      ∃ p', cookie y' = Some p' ∧
           qr_codes p' = <[Z.to_nat (current_index p) :=
                             qr_code_for (qr_data_of p) (current_index p) (stamp e 0)]>
                           (qr_codes p) ∧
           status p' = running ∧
           sub_state p' = Some AwaitingProximity1 ∧
           current_index p' = current_index p ∧
           accepted_boxes p' = accepted_boxes p ∧
           rejected_boxes p' = rejected_boxes p)).
    destruct y as [c regs lg]; cbn [cookie] in Hp; subst c.
    unfold initial_store; cbn [cookie registers print_log]; rewrite Hf.
    destruct_production p. wf_hyp Hwf. norm_store_in Hst. subst.
    unfold qr_data_of. norm_store.
    unfold_handlers. repeat wp_step_ok.
    all: reply_leaf; rewrite ?length_insert in *; try (exfalso; lia); try done.
    all: regs; repeat split; try done; eexists; by repeat split.
  - intros Hns.
    apply (serve_wp (λ r y', http r = 400 ∧ y' = y)).
    destruct y as [[p|] regs lg]; unfold initial_store; cbn [cookie registers print_log].
    + specialize (Hns p eq_refl). destruct_production p. norm_store_in Hns.
      unfold_handlers. repeat wp_step.
      all: reply_leaf; done.
    + unfold_handlers. repeat wp_step. all: reply_leaf; done.
Qed.

(** [stopped_run] is well formed. *)
Lemma stopped_run_wf : wf_production stopped_run.
Proof. unfold wf_production. vm_compute. repeat split; try congruence; eauto. Qed.

(** A restart of [stopped_run], and one of a run that is running. *)
Lemma restart_conveyor_spec_witness :
  http (serve (restart_conveyor (calm 0)) (calm 0) (sys_of stopped_run [])).1 = 200 ∧
  http (serve (restart_conveyor (calm 0)) (calm 0) (sys_of scanning_run [])).1 = 400.
Proof.
  split.
  - by destruct (proj1 (restart_conveyor_spec (calm 0) (sys_of stopped_run []))
                  stopped_run eq_refl stopped_run_wf eq_refl eq_refl) as [H _].
  - apply (proj2 (restart_conveyor_spec (calm 0) (sys_of scanning_run []))).
    by intros p [= <-].
Defined.

(** C9 as stated does not hold: the accepted counter register holds 7
    before a reset and 7 after it; it is written with its default 0 by
    [start_production] only. *)
Lemma reset_keeps_accepted_counter :
  let y := sys_of scanning_run [(ACCEPTED_BOXES_ADDRESS, 7)] in
  http (serve reset_production (calm 0) y).1 = 200 ∧
  registers (serve reset_production (calm 0) y).2 !!! ACCEPTED_BOXES_ADDRESS = 7.
Proof. by vm_compute. Qed.

(** C9 (amended): on a bus that does not fail, a reset is answered with 200
    in every state, with or without a run; it discards the run and writes 0
    to conveyor control, both proximity sensors, the scanner, production
    complete and the indicator.  The accepted counter register keeps its
    value. *)
Theorem reset_production_spec (e : Env) (y : Sys) :
  faults e = [] →
  http (serve reset_production e y).1 = 200 ∧
  cookie (serve reset_production e y).2 = None ∧
  registers (serve reset_production e y).2 !!! CONVEYOR_CONTROL_ADDRESS = 0 ∧
  registers (serve reset_production e y).2 !!! PROXIMITY_SENSOR_1_ADDRESS = 0 ∧
  registers (serve reset_production e y).2 !!! PROXIMITY_SENSOR_2_ADDRESS = 0 ∧
  registers (serve reset_production e y).2 !!! QR_SCANNER_ADDRESS = 0 ∧
  registers (serve reset_production e y).2 !!! PRODUCTION_COMPLETE_ADDRESS = 0 ∧
  registers (serve reset_production e y).2 !!! BOX_STATUS_INDICATOR_ADDRESS = 0 ∧
  registers (serve reset_production e y).2 !!! ACCEPTED_BOXES_ADDRESS
    = registers y !!! ACCEPTED_BOXES_ADDRESS.
Proof.
  intros Hf.
  apply (serve_wp (λ r y', http r = 200 ∧ cookie y' = None ∧
    registers y' !!! CONVEYOR_CONTROL_ADDRESS = 0 ∧
    registers y' !!! PROXIMITY_SENSOR_1_ADDRESS = 0 ∧
    registers y' !!! PROXIMITY_SENSOR_2_ADDRESS = 0 ∧
    registers y' !!! QR_SCANNER_ADDRESS = 0 ∧
    registers y' !!! PRODUCTION_COMPLETE_ADDRESS = 0 ∧
    registers y' !!! BOX_STATUS_INDICATOR_ADDRESS = 0 ∧
    registers y' !!! ACCEPTED_BOXES_ADDRESS = registers y !!! ACCEPTED_BOXES_ADDRESS)).
  destruct y as [[p|] regs lg]; unfold initial_store; cbn [cookie registers print_log];
    rewrite Hf; unfold_handlers; repeat wp_step_ok.
  all: reply_leaf; try done; regs; by repeat split.
Qed.

(** A reset during a run with the conveyor moving. *)
Lemma reset_production_spec_witness :
  cookie (serve reset_production (calm 0)
            (sys_of scanning_run [(CONVEYOR_CONTROL_ADDRESS, 5)])).2 = None ∧
  registers (serve reset_production (calm 0)
               (sys_of scanning_run [(CONVEYOR_CONTROL_ADDRESS, 5)])).2
    !!! CONVEYOR_CONTROL_ADDRESS = 0.
Proof.
  destruct (reset_production_spec (calm 0)
              (sys_of scanning_run [(CONVEYOR_CONTROL_ADDRESS, 5)]) eq_refl)
    as (_ & H1 & H2 & _).
  by split.
Defined.

(** ** Completion *)

(** A running record with no box left is completed by the next poll. *)
Lemma completion_detected (e : Env) (y : Sys) (p : Production) :
  cookie y = Some p → status p = running → quantity p ≤ current_index p →
  faults e = [] →
  http (poll e y).1 = 200 ∧
  body (poll e y).1 !! "status" = Some (JStr "completed") ∧
  registers (poll e y).2 !!! PRODUCTION_COMPLETE_ADDRESS = 1 ∧
  registers (poll e y).2 !!! CONVEYOR_CONTROL_ADDRESS = 0 ∧
  ∃ p', cookie (poll e y).2 = Some p' ∧ status p' = completed ∧
        current_index p' = current_index p ∧
        accepted_boxes p' = accepted_boxes p.
Proof.
  intros Hp Hst Hge Hf. unfold poll.
  apply (serve_wp (λ r y', http r = 200 ∧
    body r !! "status" = Some (JStr "completed") ∧
    registers y' !!! PRODUCTION_COMPLETE_ADDRESS = 1 ∧
    registers y' !!! CONVEYOR_CONTROL_ADDRESS = 0 ∧
    ∃ p', cookie y' = Some p' ∧ status p' = completed ∧
          current_index p' = current_index p ∧
          accepted_boxes p' = accepted_boxes p)).
  destruct y as [c regs lg]; cbn [cookie] in Hp; subst c.
  unfold initial_store; cbn [cookie registers print_log]; rewrite Hf.
  destruct_production p. norm_store_in Hst. norm_store_in Hge. subst.
  unfold_poll. repeat wp_step_ok.
  all: reply_leaf; try (exfalso; lia); try done.
  all: regs; repeat split; try done; eexists; by repeat split.
Qed.

(** C10: a poll, whatever the bus does, starts from a well-formed record
    with boxes left and leaves a record whose [current_index] is the
    quantity [q]: it accepted the last box.  The code sequence has exactly
    [q] entries, so indexing it at [current_index] is out of range, and the
    poll is answered with HTTP 500 and status [error]; the acceptance is
    stored all the same (the accepted count is the counter register plus
    one) and the run is still running.  The next poll, on a bus that does not
    fail, reports the run completed. *)
Theorem final_box_reports_error (e e' : Env) (y : Sys) (p p1 : Production) :
  cookie y = Some p → wf_production p → current_index p < quantity p →
  cookie (poll e y).2 = Some p1 → current_index p1 = quantity p →
  faults e' = [] →
  http (poll e y).1 = 500 ∧
  body (poll e y).1 !! "status" = Some (JStr "error") ∧
  py_index (qr_codes p1) (current_index p1) = None ∧
  accepted_boxes p1 = registers y !!! ACCEPTED_BOXES_ADDRESS + 1 ∧
  status p1 = running ∧
  ∃ p2, cookie (poll e' (poll e y).2).2 = Some p2 ∧ status p2 = completed ∧
        body (poll e' (poll e y).2).1 !! "status" = Some (JStr "completed").
Proof.
  intros Hp Hwf Hlt Hp1 Hq Hf'.
  assert (http (poll e y).1 = 500 ∧
    body (poll e y).1 !! "status" = Some (JStr "error") ∧
    py_index (qr_codes p1) (current_index p1) = None ∧
    accepted_boxes p1 = registers y !!! ACCEPTED_BOXES_ADDRESS + 1 ∧
    status p1 = running ∧ quantity p1 = quantity p) as (H1 & H2 & H3 & H4 & H5 & H6).
  { revert p1 Hp1 Hq. unfold poll.
    apply (serve_wp (λ r y', ∀ p1, cookie y' = Some p1 →
      current_index p1 = quantity p →
      http r = 500 ∧ body r !! "status" = Some (JStr "error") ∧
      py_index (qr_codes p1) (current_index p1) = None ∧
      accepted_boxes p1 = registers y !!! ACCEPTED_BOXES_ADDRESS + 1 ∧
      status p1 = running ∧ quantity p1 = quantity p)).
    destruct y as [c regs lg]; cbn [cookie registers] in Hp |- *; subst c.
    unfold initial_store; cbn [cookie registers print_log].
    destruct_production p. wf_hyp Hwf. norm_store_in Hlt.
    unfold_poll. repeat wp_step.
    all: reply_leaf; intros ? [= <-]; norm_store; intros ?; try (exfalso; lia).
    all: regs; repeat split; try done; by apply py_index_length. }
  repeat split; try done.
  destruct (completion_detected e' (poll e y).2 p1 Hp1 H5 ltac:(lia) Hf')
    as (_ & Hb & _ & _ & p2 & Hp2 & Hs2 & _).
  by exists p2.
Qed.

(** [last_box_run] is well formed. *)
Lemma last_box_run_wf : wf_production last_box_run.
Proof. unfold wf_production. vm_compute. repeat split; try congruence; eauto. Qed.

(** The only box of [last_box_run] is scanned. *)
Lemma final_box_reports_error_witness :
  http (poll (calm 1000000) (sys_of last_box_run [(QR_SCANNER_ADDRESS, 1)])).1 = 500 ∧
  ∃ p2, cookie (poll (calm 2000000)
                  (poll (calm 1000000)
                     (sys_of last_box_run [(QR_SCANNER_ADDRESS, 1)])).2).2 = Some p2 ∧
        status p2 = completed.
Proof.
  edestruct (final_box_reports_error (calm 1000000) (calm 2000000)
              (sys_of last_box_run [(QR_SCANNER_ADDRESS, 1)]) last_box_run)
    as (H1 & _ & _ & _ & _ & p2 & Hp2 & Hs2 & _);
    [reflexivity | exact last_box_run_wf | by vm_compute
    | vm_compute; reflexivity | reflexivity | reflexivity |].
  split; [exact H1|]. by exists p2.
Defined.

(** * More of the handlers *)

(** ** Every reachable record *)

(** X1: in every state reached from an idle system by requests and register
    writes, whatever bus transactions fail, the run record of the session has
    a positive quantity, an index between 0 and the quantity, and exactly
    [quantity] codes.  While the run is stopped, waits for the conveyor or
    waits for a scan, the index is below the quantity and the current code
    exists; a record that waits for a scan does not wait for proximity
    sensor 2 and has its [sensor_check_start]. *)
Theorem reachable_record_bounds (regs : gmap Z Z) (trace : list (Event * Env))
    (p : Production) :
  cookie (run (idle regs) trace) = Some p →
  0 < quantity p ∧ 0 ≤ current_index p ≤ quantity p ∧
  Z.of_nat (length (qr_codes p)) = quantity p ∧
  (status p = stopped ∨ status p = waiting_for_conveyor ∨ waiting_for_qr p = true →
     current_index p < quantity p ∧
     is_Some (qr_codes p !! Z.to_nat (current_index p))) ∧
  (waiting_for_qr p = true →
     waiting_for_proximity_2 p = false ∧ is_Some (sensor_check_start p)).
Proof.
  intros Hp.
  destruct (run_wf regs trace p Hp) as ((? & ?) & ? & Hlen & Hq & Hs & Hw & Hc).
  assert (Hlt : status p = stopped ∨ status p = waiting_for_conveyor ∨
                waiting_for_qr p = true → current_index p < quantity p).
  { intros [?|[?|?]]; [by apply Hs | by apply Hw | by apply Hq]. }
  split; [done|]. split; [done|]. split; [done|]. split.
  - intros Hor. split; [by apply Hlt|].
    apply lookup_lt_is_Some. specialize (Hlt Hor). lia.
  - intros Hwq. destruct (Hq Hwq) as (? & _ & ?). done.
Qed.

(** An instance of [reachable_record_bounds]. *)
Lemma reachable_record_bounds_witness :
  ∃ p, cookie (run (idle zero_registers) (take 3 one_box_with_a_failed_write)) = Some p ∧
       0 < quantity p ∧ Z.of_nat (length (qr_codes p)) = quantity p.
Proof.
  eexists. split; [vm_compute; reflexivity|].
  edestruct (reachable_record_bounds zero_registers
               (take 3 one_box_with_a_failed_write))
    as (H1 & _ & H3 & _); [vm_compute; reflexivity|].
  split; [exact H1 | exact H3].
Defined.

(** X2: in every state reached from an idle system while no bus transaction
    fails and the line does not write the accepted counter register, the
    accepted count of the record, its index and the accepted counter register
    are equal, and the count lies between 0 and the quantity. *)
Theorem undisturbed_counters_agree (regs : gmap Z Z) (trace : list (Event * Env))
    (p : Production) :
  Forall undisturbed trace → cookie (run (idle regs) trace) = Some p →
  accepted_boxes p = current_index p ∧
  registers (run (idle regs) trace) !!! ACCEPTED_BOXES_ADDRESS = accepted_boxes p ∧
  0 ≤ accepted_boxes p ≤ quantity p.
Proof.
  intros Hu Hp. destruct (run_counters regs trace Hu p Hp) as [Ha Hr].
  destruct (run_wf regs trace p Hp) as ((? & ?) & _).
  rewrite Hr, Ha. repeat split; lia.
Qed.

(** An instance of [undisturbed_counters_agree]. *)
Lemma undisturbed_counters_agree_witness :
  ∃ p, cookie (run (idle zero_registers) one_box) = Some p ∧
       registers (run (idle zero_registers) one_box) !!! ACCEPTED_BOXES_ADDRESS
         = accepted_boxes p.
Proof.
  eexists. split; [vm_compute; reflexivity|].
  edestruct (undisturbed_counters_agree zero_registers one_box) as (_ & H & _);
    [ repeat constructor; by vm_compute | vm_compute; reflexivity | exact H ].
Defined.

(** ** What one poll can do *)

(** X3: a poll of a session with a run record, whatever the bus does, leaves a
    run record with the same quantity, codes and descriptor, and does one of
    three things: it leaves index, rejected count and accepted count as they
    were; or it advances the index by one, leaves the rejected count and the
    run running; or it raises the rejected count by one, leaves index and
    accepted count and stops the run. *)
Theorem poll_resolves_at_most_one_box (e : Env) (y : Sys) (p : Production) :
  cookie y = Some p →
  ∃ p', cookie (poll e y).2 = Some p' ∧
    quantity p' = quantity p ∧ qr_codes p' = qr_codes p ∧
    biscuit_type p' = biscuit_type p ∧ brand p' = brand p ∧
    production_type p' = production_type p ∧
    (current_index p' = current_index p ∧ rejected_boxes p' = rejected_boxes p ∧
       accepted_boxes p' = accepted_boxes p ∨
     current_index p' = current_index p + 1 ∧ rejected_boxes p' = rejected_boxes p ∧
       status p' = running ∨
     current_index p' = current_index p ∧ rejected_boxes p' = rejected_boxes p + 1 ∧
       accepted_boxes p' = accepted_boxes p ∧ status p' = stopped).
Proof.
  intros Hp. unfold poll.
  apply (serve_wp (λ _ y', ∃ p', cookie y' = Some p' ∧
    quantity p' = quantity p ∧ qr_codes p' = qr_codes p ∧
    biscuit_type p' = biscuit_type p ∧ brand p' = brand p ∧
    production_type p' = production_type p ∧
    (current_index p' = current_index p ∧ rejected_boxes p' = rejected_boxes p ∧
       accepted_boxes p' = accepted_boxes p ∨
     current_index p' = current_index p + 1 ∧ rejected_boxes p' = rejected_boxes p ∧
       status p' = running ∨
     current_index p' = current_index p ∧ rejected_boxes p' = rejected_boxes p + 1 ∧
       accepted_boxes p' = accepted_boxes p ∧ status p' = stopped))).
  destruct y as [c regs lg]; cbn [cookie] in Hp; subst c.
  unfold initial_store; cbn [cookie registers print_log].
  destruct_production p. unfold_poll. repeat wp_step.
  all: unfold final_sys; norm_store; cbn [cookie]; eexists; (split; [reflexivity|]);
    norm_store; simplify_eq; repeat split; tauto.
Qed.

(** An instance of [poll_resolves_at_most_one_box]. *)
Lemma poll_resolves_at_most_one_box_witness :
  ∃ p', cookie (poll (faulty [false; false; true] 9000000)
                  (sys_of scanning_run [(QR_SCANNER_ADDRESS, 1)])).2 = Some p' ∧
        quantity p' = 2 ∧ qr_codes p' = qr_codes scanning_run.
Proof.
  destruct (poll_resolves_at_most_one_box (faulty [false; false; true] 9000000)
              (sys_of scanning_run [(QR_SCANNER_ADDRESS, 1)]) scanning_run eq_refl)
    as (p' & Hp' & Hq & Hc & _).
  exists p'. split; [exact Hp'|]. split; [by rewrite Hq | exact Hc].
Defined.

(** ** A run that is stopped or completed *)

(** X4: a poll of a run that is stopped or completed changes neither the
    session nor the registers nor the print log, whatever the bus does.  When
    no bus transaction fails it answers 200 with the status and the rejected
    count of the record, with [remaining] and [can_restart] for a stopped
    run, and with the accepted count and [show_summary] for a completed
    one. *)
Theorem settled_run_poll (e : Env) (y : Sys) (p : Production) :
  cookie y = Some p → status p = stopped ∨ status p = completed →
  (poll e y).2 = y ∧
  (faults e = [] →
     http (poll e y).1 = 200 ∧
     body (poll e y).1 !! "status"
       = Some (JStr (if bool_decide (status p = stopped) then "stopped" else "completed")) ∧
     body (poll e y).1 !! "rejected_boxes" = Some (JInt (rejected_boxes p)) ∧
     (status p = stopped →
        body (poll e y).1 !! "remaining" = Some (JInt (quantity p - current_index p)) ∧
        body (poll e y).1 !! "can_restart" = Some (JBool true)) ∧
     (status p = completed →
        body (poll e y).1 !! "accepted_boxes" = Some (JInt (accepted_boxes p)) ∧
        body (poll e y).1 !! "show_summary" = Some (JBool true))).
Proof.
  intros Hp Hst. split.
  - unfold poll. apply (serve_wp (λ _ y', y' = y)).
    destruct y as [c regs lg]; cbn [cookie] in Hp; subst c.
    unfold initial_store; cbn [cookie registers print_log].
    destruct_production p. norm_store_in Hst.
    unfold_poll. destruct Hst as [-> | ->]; repeat wp_step.
    all: by unfold final_sys; norm_store.
  - intros Hf. unfold poll.
    apply (serve_wp (λ r _, http r = 200 ∧
      body r !! "status"
        = Some (JStr (if bool_decide (status p = stopped) then "stopped" else "completed")) ∧
      body r !! "rejected_boxes" = Some (JInt (rejected_boxes p)) ∧
      (status p = stopped →
        body r !! "remaining" = Some (JInt (quantity p - current_index p)) ∧
        body r !! "can_restart" = Some (JBool true)) ∧
      (status p = completed →
        body r !! "accepted_boxes" = Some (JInt (accepted_boxes p)) ∧
        body r !! "show_summary" = Some (JBool true)))).
    destruct y as [c regs lg]; cbn [cookie] in Hp; subst c.
    unfold initial_store; cbn [cookie registers print_log]; rewrite Hf.
    destruct_production p. norm_store_in Hst. norm_store.
    unfold_poll. destruct Hst as [-> | ->]; repeat wp_step_ok.
    all: cbn [http body jsonify]; repeat split; try done; by vm_compute.
Qed.

(** An instance of [settled_run_poll]. *)
Lemma settled_run_poll_witness :
  (poll (faulty [true] 0) (sys_of stopped_run [])).2 = sys_of stopped_run [] ∧
  body (poll (calm 0) (sys_of stopped_run [])).1 !! "rejected_boxes" = Some (JInt 1).
Proof.
  destruct (settled_run_poll (faulty [true] 0) (sys_of stopped_run []) stopped_run
              eq_refl (or_introl eq_refl)) as [H1 _].
  destruct (settled_run_poll (calm 0) (sys_of stopped_run []) stopped_run
              eq_refl (or_introl eq_refl)) as [_ H2].
  destruct (H2 eq_refl) as (_ & _ & H3 & _).
  split; [exact H1 | exact H3].
Defined.

(** ** The three stages of a box *)

Lemma getitem_Some_lookup {A} (l : list A) i x :
  py_index l i ≫= (l !!.) = Some x → 0 ≤ i → l !! Z.to_nat i = Some x.
Proof.
  unfold py_index. intros Hx Hi.
  case_bool_decide; [done|]. case_bool_decide; [lia | done].
Qed.

(* the element found by an index that is not negative *)
Ltac lookup_hyps :=
  repeat match goal with
  | H : py_index ?l ?i ≫= _ = Some _ |- _ =>
      apply getitem_Some_lookup in H; [|lia]
  end.

Ltac exact_leaf :=
  unfold final_sys; norm_store; cbn [cookie registers print_log];
  bool_hyps; simplify_eq; lookup_hyps; index_hyps;
  first [ by (exfalso; first [lia | congruence | tauto])
        | by (exfalso; eapply is_Some_None)
        | reflexivity
        | idtac ].

Lemma poll_at_proximity_1 e y p :
  cookie y = Some p → wf_production p → status p = running →
  current_index p < quantity p →
  sub_state p = Some AwaitingProximity1 →
  registers y !!! PROXIMITY_SENSOR_1_ADDRESS = 1 →
  registers y !!! PROXIMITY_SENSOR_2_ADDRESS ≠ 1 →
  faults e = [] → printer_ok e = true →
  ∃ c, qr_codes p !! Z.to_nat (current_index p) = Some c ∧
    (poll e y).2 =
      {| cookie := Some (set_waiting_for_proximity_2 true
                           (set_waiting_for_proximity_1 false p));
         registers := <[PROXIMITY_SENSOR_1_ADDRESS := 0]> (registers y);
         print_log := print_log y ++ [qr_image c] |}.
Proof.
  intros Hp Hwf Hst Hlt Hsub H1 H2 Hf Hpr.
  destruct (lookup_lt_is_Some_2 (qr_codes p) (Z.to_nat (current_index p)))
    as [c Hc].
  { destruct Hwf as ((? & ?) & ? & ? & _). lia. }
  exists c. split; [done|]. revert Hc. unfold poll.
  apply (serve_wp (λ _ y', qr_codes p !! Z.to_nat (current_index p) = Some c →
    y' = {| cookie := Some (set_waiting_for_proximity_2 true
                           (set_waiting_for_proximity_1 false p));
         registers := <[PROXIMITY_SENSOR_1_ADDRESS := 0]> (registers y);
         print_log := print_log y ++ [qr_image c] |})).
  destruct y as [c0 regs lg]; cbn [cookie registers print_log] in *; subst c0.
  unfold initial_store; cbn [cookie registers print_log]; rewrite Hf.
  destruct_production p. wf_hyp Hwf. norm_store_in Hst. norm_store_in Hlt.
  unfold sub_state in Hsub; norm_store_in Hsub.
  destruct wfq; [done|]. destruct wp2; [done|]. destruct wp1; [|done]. subst.
  unfold_poll. repeat wp_step_ok.
  all: exact_leaf.
  all: intros Hc; simplify_eq; reflexivity.
Qed.

Lemma poll_at_proximity_2 e y p :
  cookie y = Some p → wf_production p → status p = running →
  current_index p < quantity p →
  sub_state p = Some AwaitingProximity2 →
  registers y !!! PROXIMITY_SENSOR_1_ADDRESS ≠ 1 →
  registers y !!! PROXIMITY_SENSOR_2_ADDRESS = 1 →
  registers y !!! QR_SCANNER_ADDRESS ≠ 1 →
  faults e = [] → clock e 1 - clock e 0 < SCAN_WINDOW →
  (poll e y).2 =
    {| cookie := Some (set_sensor_check_start (Some (clock e 0))
                         (set_waiting_for_qr true
                            (set_waiting_for_proximity_2 false p)));
       registers := <[PROXIMITY_SENSOR_2_ADDRESS := 0]> (registers y);
       print_log := print_log y |}.
Proof.
  intros Hp Hwf Hst Hlt Hsub H1 H2 H3 Hf Hck. unfold poll.
  apply (serve_wp (λ _ y',
    y' = {| cookie := Some (set_sensor_check_start (Some (clock e 0))
                         (set_waiting_for_qr true
                            (set_waiting_for_proximity_2 false p)));
       registers := <[PROXIMITY_SENSOR_2_ADDRESS := 0]> (registers y);
       print_log := print_log y |})).
  destruct y as [c0 regs lg]; cbn [cookie registers print_log] in *; subst c0.
  unfold initial_store; cbn [cookie registers print_log]; rewrite Hf.
  destruct_production p. wf_hyp Hwf. norm_store_in Hst. norm_store_in Hlt.
  unfold sub_state in Hsub; norm_store_in Hsub.
  destruct wfq; [done|]. destruct wp2; [|by destruct wp1]. subst.
  unfold_poll. repeat wp_step_ok.
  all: exact_leaf.
Qed.

Lemma poll_at_scan e y p :
  cookie y = Some p → wf_production p → status p = running →
  sub_state p = Some AwaitingScan →
  registers y !!! QR_SCANNER_ADDRESS = 1 →
  faults e = [] →
  (poll e y).2 =
    {| cookie := Some (set_waiting_for_proximity_1 true
                         (set_queued_box (Some false)
                            (set_waiting_for_qr false
                               (set_current_index (current_index p + 1)
                                  (set_accepted_boxes
                                     (registers y !!! ACCEPTED_BOXES_ADDRESS + 1) p)))));
       registers := <[QR_SCANNER_ADDRESS := 0]>
                      (<[BOX_STATUS_INDICATOR_ADDRESS := 1]>
                         (<[ACCEPTED_BOXES_ADDRESS :=
                              registers y !!! ACCEPTED_BOXES_ADDRESS + 1]>
                            (registers y)));
       print_log := print_log y |}.
Proof.
  intros Hp Hwf Hst Hsub H3 Hf. unfold poll.
  apply (serve_wp (λ _ y',
    y' = {| cookie := Some (set_waiting_for_proximity_1 true
                         (set_queued_box (Some false)
                            (set_waiting_for_qr false
                               (set_current_index (current_index p + 1)
                                  (set_accepted_boxes
                                     (registers y !!! ACCEPTED_BOXES_ADDRESS + 1) p)))));
       registers := <[QR_SCANNER_ADDRESS := 0]>
                      (<[BOX_STATUS_INDICATOR_ADDRESS := 1]>
                         (<[ACCEPTED_BOXES_ADDRESS :=
                              registers y !!! ACCEPTED_BOXES_ADDRESS + 1]>
                            (registers y)));
       print_log := print_log y |})).
  destruct y as [c0 regs lg]; cbn [cookie registers print_log] in *; subst c0.
  unfold initial_store; cbn [cookie registers print_log]; rewrite Hf.
  awaiting_scan p Hwf Hsub. norm_store_in Hst. subst.
  unfold_poll. repeat wp_step_ok.
  all: exact_leaf.
Qed.

Lemma box_passes_next q i es y :
  waits_for_box q i y → i < q →
  smooth es.1.1 → smooth es.1.2 → smooth es.2 →
  waits_for_box q (i + 1) (run y (box_passes es)).
Proof.
  intros (p & Hp & Hwf & Hst & Hsub & Hq & Hi & Ha & Hr & HA & H2 & H3 & Hlg) Hlt
    (Hf1 & Hpr1 & _) (Hf2 & _ & Hck2) (Hf3 & _ & _).
  assert (Hwfs : wf_sys (run y (box_passes es))).
  { apply run_wf_from. intros p0 Hp0. congruence. }
  destruct es as [[e1 e2] e3]; cbn [fst snd] in *.
  destruct y as [c regs lg]; cbn [cookie registers print_log] in *; subst c.
  unfold box_passes, run in *; cbn [foldl step fst snd] in *.
  cbn [cookie registers print_log] in *.
  pose proof Hsub as Hflags. unfold sub_state in Hflags.
  destruct (waiting_for_qr p) eqn:Hwq; [done|].
  destruct (waiting_for_proximity_2 p) eqn:Hw2; [done|].
  destruct (waiting_for_proximity_1 p) eqn:Hw1; [|done].
  (* proximity sensor 1 *)
  edestruct (poll_at_proximity_1 e1
               {| cookie := Some p;
                  registers := <[PROXIMITY_SENSOR_1_ADDRESS:=1]> regs;
                  print_log := lg |} p) as (c & Hc & Heq1);
    [reflexivity | exact Hwf | exact Hst | lia | exact Hsub | .. ].
  { cbn [registers]. by rewrite lookup_total_insert_eq. }
  { cbn [registers]. rewrite lookup_total_insert_ne by done. lia. }
  { done. } { done. }
  rewrite Heq1 in Hwfs |- *. clear Heq1. cbn [cookie registers print_log] in *.
  (* proximity sensor 2 *)
  set (p1 := set_waiting_for_proximity_2 true (set_waiting_for_proximity_1 false p)) in *.
  assert (Hwf1 : wf_production p1).
  { destruct Hwf as ((? & ?) & ? & ? & ? & ? & ? & ?).
    unfold wf_production, p1; norm_store. rewrite Hwq. repeat split; try done. }
  match goal with
  | |- context [poll e2 ?y2] =>
      pose proof (poll_at_proximity_2 e2 y2 p1 eq_refl Hwf1 Hst
        ltac:(unfold p1; norm_store; lia)
        ltac:(unfold sub_state, p1; norm_store; by rewrite Hwq)
        ltac:(cbn [registers]; regs; lia)
        ltac:(cbn [registers]; by regs)
        ltac:(cbn [registers]; regs; lia) Hf2 Hck2) as Heq2
  end.
  rewrite Heq2 in Hwfs |- *. clear Heq2.
  cbn [cookie registers print_log] in *.
  (* the scanner *)
  set (p2 := set_sensor_check_start _ _) in *.
  assert (Hwf2 : wf_production p2).
  { destruct Hwf as ((? & ?) & ? & ? & ? & ? & ? & ?).
    unfold wf_production, p2, p1; norm_store. repeat split; try done; try lia; eauto. }
  match goal with
  | |- context [poll e3 ?y3] =>
      pose proof (poll_at_scan e3 y3 p2 eq_refl Hwf2 Hst
        ltac:(by unfold sub_state, p2; norm_store)
        ltac:(cbn [registers]; by regs) Hf3) as Heq3
  end.
  rewrite Heq3 in Hwfs |- *. clear Heq3.
  cbn [cookie registers print_log] in *.
  eexists. split; [reflexivity|]. split; [by apply Hwfs|].
  unfold sub_state, p2, p1; norm_store. cbn [cookie registers print_log]. regs.
  rewrite length_app, Nat2Z.inj_add. cbn [length].
  repeat split; try done; lia.
Qed.

Lemma start_production_ok e data y bt br pt cq :
  sd_biscuit_type data = Some bt → sd_brand data = Some br →
  sd_production_type data = Some pt → sd_custom_quantity data = Some cq →
  0 < requested_quantity pt cq → faults e = [] →
  ∃ codes,
    Z.of_nat (length codes) = requested_quantity pt cq ∧
    (serve (start_production e data) e y).2 =
      {| cookie := Some
           {| biscuit_type := bt; brand := br; production_type := pt;
              quantity := requested_quantity pt cq; qr_codes := codes;
              current_index := 0; accepted_boxes := 0; rejected_boxes := 0;
              start_time := clock e 0; end_time := None;
              status := waiting_for_conveyor; sensor_check_start := None;
              waiting_for_proximity_1 := true; waiting_for_proximity_2 := false;
              waiting_for_qr := false; queued_box := None |};
         registers :=
           <[CONVEYOR_CONTROL_ADDRESS := 1]>
             (<[ACCEPTED_BOXES_ADDRESS := 0]>
                (<[BOX_STATUS_INDICATOR_ADDRESS := 0]>
                   (<[PRODUCTION_COMPLETE_ADDRESS := 0]>
                      (<[QR_SCANNER_ADDRESS := 0]>
                         (<[PROXIMITY_SENSOR_2_ADDRESS := 0]>
                            (<[PROXIMITY_SENSOR_1_ADDRESS := 0]>
                               (<[CONVEYOR_CONTROL_ADDRESS := 0]> (registers y))))))));
         print_log := print_log y |} ∧
    http (serve (start_production e data) e y).1 = 200.
Proof.
  intros Hbt Hbr Hpt Hcq Hpos Hf.
  apply (serve_wp (λ r y', ∃ codes,
    Z.of_nat (length codes) = requested_quantity pt cq ∧
    y' =
      {| cookie := Some
           {| biscuit_type := bt; brand := br; production_type := pt;
              quantity := requested_quantity pt cq; qr_codes := codes;
              current_index := 0; accepted_boxes := 0; rejected_boxes := 0;
              start_time := clock e 0; end_time := None;
              status := waiting_for_conveyor; sensor_check_start := None;
              waiting_for_proximity_1 := true; waiting_for_proximity_2 := false;
              waiting_for_qr := false; queued_box := None |};
         registers :=
           <[CONVEYOR_CONTROL_ADDRESS := 1]>
             (<[ACCEPTED_BOXES_ADDRESS := 0]>
                (<[BOX_STATUS_INDICATOR_ADDRESS := 0]>
                   (<[PRODUCTION_COMPLETE_ADDRESS := 0]>
                      (<[QR_SCANNER_ADDRESS := 0]>
                         (<[PROXIMITY_SENSOR_2_ADDRESS := 0]>
                            (<[PROXIMITY_SENSOR_1_ADDRESS := 0]>
                               (<[CONVEYOR_CONTROL_ADDRESS := 0]> (registers y))))))));
         print_log := print_log y |} ∧
    http r = 200)).
  destruct y as [c regs lg]; unfold initial_store; cbn [cookie registers print_log].
  rewrite Hf. unfold_handlers. rewrite Hbt, Hbr, Hpt, Hcq.
  unfold requested_quantity in *.
  repeat wp_step_ok.
  all: unfold final_sys; norm_store; cbn [cookie registers print_log http jsonify].
  all: bool_hyps; rewrite ?length_seqZ in *; index_hyps; try (exfalso; lia).
  all: eexists; split; [|split; [reflexivity|done]]; lia.
Qed.

Lemma poll_at_conveyor_start e y p :
  cookie y = Some p → status p = waiting_for_conveyor →
  registers y !!! CONVEYOR_CONTROL_ADDRESS = 5 → faults e = [] →
  (poll e y).2 =
    {| cookie := Some (set_start_time (clock e 0)
                         (set_queued_box (Some false)
                            (set_waiting_for_proximity_1 true
                               (set_status running p))));
       registers := <[BOX_STATUS_INDICATOR_ADDRESS := 0]>
                      (<[QR_SCANNER_ADDRESS := 0]>
                         (<[PROXIMITY_SENSOR_2_ADDRESS := 0]>
                            (<[PROXIMITY_SENSOR_1_ADDRESS := 0]> (registers y))));
       print_log := print_log y |}.
Proof.
  intros Hp Hst H5 Hf. unfold poll.
  apply (serve_wp (λ _ y', y' =
    {| cookie := Some (set_start_time (clock e 0)
                         (set_queued_box (Some false)
                            (set_waiting_for_proximity_1 true
                               (set_status running p))));
       registers := <[BOX_STATUS_INDICATOR_ADDRESS := 0]>
                      (<[QR_SCANNER_ADDRESS := 0]>
                         (<[PROXIMITY_SENSOR_2_ADDRESS := 0]>
                            (<[PROXIMITY_SENSOR_1_ADDRESS := 0]> (registers y))));
       print_log := print_log y |})).
  destruct y as [c0 regs lg]; cbn [cookie registers print_log] in *; subst c0.
  unfold initial_store; cbn [cookie registers print_log]; rewrite Hf.
  destruct_production p. norm_store_in Hst. subst.
  unfold_poll. repeat wp_step_ok.
  all: unfold final_sys; norm_store; cbn [cookie registers print_log];
    bool_hyps; first [reflexivity | by exfalso].
Qed.

Lemma poll_at_completion e y p :
  cookie y = Some p → status p = running → quantity p ≤ current_index p →
  faults e = [] →
  (poll e y).2 =
    {| cookie := Some (set_waiting_for_qr false
                         (set_waiting_for_proximity_2 false
                            (set_waiting_for_proximity_1 false
                               (set_end_time (Some (clock e 0))
                                  (set_status completed p)))));
       registers := <[CONVEYOR_CONTROL_ADDRESS := 0]>
                      (<[PRODUCTION_COMPLETE_ADDRESS := 1]> (registers y));
       print_log := print_log y |}.
Proof.
  intros Hp Hst Hge Hf. unfold poll.
  apply (serve_wp (λ _ y', y' =
    {| cookie := Some (set_waiting_for_qr false
                         (set_waiting_for_proximity_2 false
                            (set_waiting_for_proximity_1 false
                               (set_end_time (Some (clock e 0))
                                  (set_status completed p)))));
       registers := <[CONVEYOR_CONTROL_ADDRESS := 0]>
                      (<[PRODUCTION_COMPLETE_ADDRESS := 1]> (registers y));
       print_log := print_log y |})).
  destruct y as [c0 regs lg]; cbn [cookie registers print_log] in *; subst c0.
  unfold initial_store; cbn [cookie registers print_log]; rewrite Hf.
  destruct_production p. norm_store_in Hst. norm_store_in Hge. subst.
  unfold_poll. repeat wp_step_ok.
  all: unfold final_sys; norm_store; cbn [cookie registers print_log];
    bool_hyps; first [reflexivity | exfalso; lia].
Qed.

Lemma run_app y (t1 t2 : list (Event * Env)) :
  run y (t1 ++ t2)%list = run (run y t1) t2.
Proof. apply foldl_app. Qed.

Lemma conveyor_starts_ready regs data e0 e1 bt br pt cq :
  sd_biscuit_type data = Some bt → sd_brand data = Some br →
  sd_production_type data = Some pt → sd_custom_quantity data = Some cq →
  0 < requested_quantity pt cq → faults e0 = [] → faults e1 = [] →
  waits_for_box (requested_quantity pt cq) 0
    (run (idle regs) (conveyor_starts data e0 e1)).
Proof.
  intros Hbt Hbr Hpt Hcq Hpos Hf0 Hf1.
  assert (Hwfs := run_wf regs (conveyor_starts data e0 e1)).
  unfold conveyor_starts, run in *; cbn [foldl step] in *.
  destruct (start_production_ok e0 data (idle regs) bt br pt cq)
    as (codes & Hlen & Heq & _); try done.
  rewrite Heq in Hwfs |- *. clear Heq. cbn [cookie registers print_log idle] in *.
  match goal with
  | |- context [poll e1 ?y1] =>
      pose proof (poll_at_conveyor_start e1 y1 _ eq_refl eq_refl
        ltac:(cbn [registers]; by regs) Hf1) as Heq1
  end.
  rewrite Heq1 in Hwfs |- *. clear Heq1.
  eexists. split; [reflexivity|]. split; [by apply Hwfs|].
  unfold sub_state; norm_store. cbn [cookie registers print_log]. regs.
  by repeat split.
Qed.

Lemma boxes_pass q boxes : ∀ i y,
  waits_for_box q i y → i + Z.of_nat (length boxes) ≤ q →
  Forall smooth_box boxes →
  waits_for_box q (i + Z.of_nat (length boxes)) (run y (boxes ≫= box_passes)).
Proof.
  induction boxes as [|es boxes IH]; intros i y Hw Hle Hs.
  - cbn. by rewrite Z.add_0_r.
  - inversion Hs as [|? ? (H1 & H2 & H3) Hs']; subst.
    cbn [length] in *. rewrite Nat2Z.inj_succ in *.
    change ((es :: boxes) ≫= box_passes)
      with ((box_passes es ++ (boxes ≫= box_passes))%list).
    rewrite run_app.
    replace (i + Z.succ (Z.of_nat (length boxes)))
      with (i + 1 + Z.of_nat (length boxes)) by lia.
    apply IH; [|lia|done].
    apply box_passes_next; [done|lia|done..].
Qed.

(** X5: a start request for [n > 0] boxes is acknowledged by the line (conveyor
    control 5) and polled, then [n] times a box passes proximity sensor 1,
    proximity sensor 2 and the scanner with a poll after each, then a last
    poll follows; no bus transaction fails, the printer prints, and no poll
    takes as long as the scan window.  The run is then completed with index
    and accepted count [n], no rejection, [end_time] the time of the last
    poll, production complete at 1, conveyor control at 0, the accepted
    counter register at [n], and [n] images sent to the printer. *)
Theorem scanned_boxes_complete_run (regs : gmap Z Z) (data : StartData)
    (bt br pt : string) (cq : Z) (e0 e1 e_end : Env)
    (boxes : list (Env * Env * Env)) :
  sd_biscuit_type data = Some bt → sd_brand data = Some br →
  sd_production_type data = Some pt → sd_custom_quantity data = Some cq →
  0 < requested_quantity pt cq →
  Z.of_nat (length boxes) = requested_quantity pt cq →
  faults e0 = [] → faults e1 = [] → Forall smooth_box boxes → faults e_end = [] →
  let y := run (idle regs) (whole_run data e0 e1 boxes e_end) in
  ∃ p, cookie y = Some p ∧ status p = completed ∧
       quantity p = requested_quantity pt cq ∧
       current_index p = quantity p ∧ accepted_boxes p = quantity p ∧
       rejected_boxes p = 0 ∧ end_time p = Some (clock e_end 0) ∧
       sub_state p = None ∧
       registers y !!! PRODUCTION_COMPLETE_ADDRESS = 1 ∧
       registers y !!! CONVEYOR_CONTROL_ADDRESS = 0 ∧
       registers y !!! ACCEPTED_BOXES_ADDRESS = quantity p ∧
       Z.of_nat (length (print_log y)) = quantity p.
Proof.
  intros Hbt Hbr Hpt Hcq Hpos Hn Hf0 Hf1 Hs Hfe y. subst y.
  unfold whole_run. rewrite !run_app.
  pose proof (conveyor_starts_ready regs data e0 e1 bt br pt cq
                Hbt Hbr Hpt Hcq Hpos Hf0 Hf1) as Hw.
  apply (boxes_pass _ boxes) in Hw; [|lia|done].
  destruct Hw as (p & Hp & Hwf & Hst & Hsub & Hq & Hi & Ha & Hr & HA & _ & _ & Hlg).
  set (y := run _ (boxes ≫= box_passes)) in *.
  change (run y [(CheckProductionStatus, e_end)]) with (poll e_end y).2.
  rewrite (poll_at_completion e_end y p Hp Hst ltac:(lia) Hfe).
  eexists. split; [reflexivity|].
  unfold sub_state; norm_store. cbn [cookie registers print_log]. regs.
  repeat split; try done; lia.
Qed.

(** An instance of [scanned_boxes_complete_run]. *)
Lemma scanned_boxes_complete_run_witness :
  ∃ p, cookie (run (idle zero_registers)
                 (whole_run (start_request 2) (calm 0) (calm 1)
                    [(calm 2, calm 3, calm 4); (calm 5, calm 6, calm 7)]
                    (calm 8))) = Some p ∧
       status p = completed ∧ accepted_boxes p = 2 ∧ rejected_boxes p = 0.
Proof.
  edestruct (scanned_boxes_complete_run zero_registers (start_request 2)
               "Marie" "Acme" "custom" 2 (calm 0) (calm 1) (calm 8)
               [(calm 2, calm 3, calm 4); (calm 5, calm 6, calm 7)])
    as (p & Hp & Hs & Hq & _ & Ha & Hr & _);
    [ reflexivity | reflexivity | reflexivity | reflexivity | reflexivity
    | reflexivity | reflexivity | reflexivity
    | repeat constructor; by vm_compute | reflexivity | ].
  exists p. split; [exact Hp|]. split; [exact Hs|].
  split; [by rewrite Ha, Hq | exact Hr].
Defined.

(** ** Polls that find nothing to do *)

Lemma poll_idle e y p :
  cookie y = Some p → status p = running → wf_production p →
  current_index p < quantity p →
  (waiting_for_qr p = false → waiting_for_proximity_1 p = true →
     registers y !!! PROXIMITY_SENSOR_1_ADDRESS ≠ 1) →
  (waiting_for_qr p = false → waiting_for_proximity_2 p = true →
     registers y !!! PROXIMITY_SENSOR_2_ADDRESS ≠ 1) →
  (waiting_for_qr p = true →
     registers y !!! QR_SCANNER_ADDRESS ≠ 1 ∧
     (registers y !!! PROXIMITY_SENSOR_1_ADDRESS = 1 → pending_overlap p = true) ∧
     ∀ t0, sensor_check_start p = Some t0 → clock e 0 - t0 < SCAN_WINDOW) →
  (poll e y).2 = y.
Proof.
  intros Hp Hst Hwf Hlt H1 H2 H3. unfold poll.
  apply (serve_wp (λ _ y', y' = y)).
  destruct y as [c0 regs lg]; cbn [cookie registers print_log] in *; subst c0.
  unfold initial_store; cbn [cookie registers print_log].
  destruct_production p. wf_hyp Hwf. norm_store_in Hst. norm_store_in Hlt.
  norm_store_in H1. norm_store_in H2. norm_store_in H3.
  unfold pending_overlap in H3. norm_store_in H3. subst.
  unfold_poll. repeat wp_step.
  all: unfold final_sys; norm_store; cbn [cookie registers print_log];
    bool_hyps; simplify_eq; try reflexivity.
  all: exfalso; repeat match goal with b : bool |- _ => destruct b end;
    cbn [andb negb] in *; bool_hyps;
    repeat match goal with
    | H : ?a = ?a → _ |- _ => specialize (H eq_refl)
    | H : ?P → _, H' : ?P |- _ => specialize (H H')
    | H : ∀ t, Some _ = Some t → _ |- _ => specialize (H _ eq_refl)
    | H : _ ∧ _ |- _ => destruct H
    end; first [done | lia | congruence].
Qed.

(** X6: a poll of a running, well-formed record with boxes left changes neither
    the session nor the registers nor the print log, whatever the bus does,
    when the sensor its sub-state waits for has not fired: proximity sensor 1
    in AwaitingProximity1; proximity sensor 2 in AwaitingProximity2 (and
    proximity sensor 1 if the record also waits for it); in AwaitingScan the
    scanner, with the scan window still open and proximity sensor 1 either
    not fired or already latched. *)
Theorem quiet_poll_changes_nothing (e : Env) (y : Sys) (p : Production)
    (s : BoxSubState) :
  cookie y = Some p → wf_production p → status p = running →
  current_index p < quantity p → sub_state p = Some s →
  match s with
  | AwaitingProximity1 => registers y !!! PROXIMITY_SENSOR_1_ADDRESS ≠ 1
  | AwaitingProximity2 =>
      registers y !!! PROXIMITY_SENSOR_2_ADDRESS ≠ 1 ∧
      (waiting_for_proximity_1 p = true →
         registers y !!! PROXIMITY_SENSOR_1_ADDRESS ≠ 1)
  | AwaitingScan =>
      registers y !!! QR_SCANNER_ADDRESS ≠ 1 ∧
      (registers y !!! PROXIMITY_SENSOR_1_ADDRESS = 1 → pending_overlap p = true) ∧
      ∀ t0, sensor_check_start p = Some t0 → clock e 0 - t0 < SCAN_WINDOW
  end →
  (poll e y).2 = y.
Proof.
  intros Hp Hwf Hst Hlt Hsub Hs.
  apply (poll_idle e y p Hp Hst Hwf Hlt); unfold sub_state in Hsub.
  - intros Hq H1. rewrite Hq, H1 in Hsub.
    destruct (waiting_for_proximity_2 p); simplify_eq; [by apply Hs | done].
  - intros Hq H2. rewrite Hq, H2 in Hsub. simplify_eq. by destruct Hs.
  - intros Hq. rewrite Hq in Hsub. by simplify_eq.
Qed.

(** An instance of [quiet_poll_changes_nothing]. *)
Lemma quiet_poll_changes_nothing_witness :
  (poll (faulty [false; true] 1000000) (sys_of arriving_run [])).2
  = sys_of arriving_run [].
Proof.
  apply (quiet_poll_changes_nothing _ _ arriving_run AwaitingProximity1);
    [ reflexivity
    | unfold wf_production; vm_compute; repeat split; try congruence; eauto
    | reflexivity | reflexivity | reflexivity | vm_compute; congruence ].
Defined.

(** ** The conveyor signal *)

(** X7: a poll of a run that waits for the conveyor starts it exactly when
    conveyor control reads 5: on a bus that does not fail the record becomes
    running, waits for proximity sensor 1, has its latch cleared and its
    [start_time] set to the time of the poll, and the registers of both
    proximity sensors, the scanner and the indicator are written with 0.
    With any other value of conveyor control nothing changes, whatever the
    bus does, and the answer on a bus that does not fail is 200 with status
    [waiting_for_conveyor]. *)
Theorem conveyor_signal_starts_run (e : Env) (y : Sys) (p : Production) :
  cookie y = Some p → status p = waiting_for_conveyor →
  (registers y !!! CONVEYOR_CONTROL_ADDRESS = 5 → faults e = [] →
     (poll e y).2 =
       {| cookie := Some (set_start_time (clock e 0)
                            (set_queued_box (Some false)
                               (set_waiting_for_proximity_1 true
                                  (set_status running p))));
          registers := <[BOX_STATUS_INDICATOR_ADDRESS := 0]>
                         (<[QR_SCANNER_ADDRESS := 0]>
                            (<[PROXIMITY_SENSOR_2_ADDRESS := 0]>
                               (<[PROXIMITY_SENSOR_1_ADDRESS := 0]> (registers y))));
          print_log := print_log y |}) ∧
  (registers y !!! CONVEYOR_CONTROL_ADDRESS ≠ 5 →
     (poll e y).2 = y ∧
     (faults e = [] →
        http (poll e y).1 = 200 ∧
        body (poll e y).1 !! "status" = Some (JStr "waiting_for_conveyor"))).
Proof.
  intros Hp Hst. split; [intros; by apply poll_at_conveyor_start|].
  intros H5. split.
  - unfold poll. apply (serve_wp (λ _ y', y' = y)).
    destruct y as [c0 regs lg]; cbn [cookie registers print_log] in *; subst c0.
    unfold initial_store; cbn [cookie registers print_log].
    destruct_production p. norm_store_in Hst. subst.
    unfold_poll. repeat wp_step.
    all: unfold final_sys; norm_store; cbn [cookie registers print_log];
      bool_hyps; done.
  - intros Hf. unfold poll.
    apply (serve_wp (λ r _, http r = 200 ∧
       body r !! "status" = Some (JStr "waiting_for_conveyor"))).
    destruct y as [c0 regs lg]; cbn [cookie registers print_log] in *; subst c0.
    unfold initial_store; cbn [cookie registers print_log]; rewrite Hf.
    destruct_production p. norm_store_in Hst. subst.
    unfold_poll. repeat wp_step_ok.
    all: cbn [http body jsonify]; bool_hyps; done.
Qed.

(** An instance of [conveyor_signal_starts_run]. *)
Lemma conveyor_signal_starts_run_witness :
  let p := set_status waiting_for_conveyor arriving_run in
  status <$> cookie (poll (calm 7) (sys_of p [(CONVEYOR_CONTROL_ADDRESS, 5)])).2
    = Some running ∧
  (poll (calm 7) (sys_of p [(CONVEYOR_CONTROL_ADDRESS, 1)])).2
    = sys_of p [(CONVEYOR_CONTROL_ADDRESS, 1)].
Proof.
  intros p. split.
  - by rewrite (proj1 (conveyor_signal_starts_run (calm 7)
                  (sys_of p [(CONVEYOR_CONTROL_ADDRESS, 5)]) p eq_refl eq_refl)
                eq_refl eq_refl).
  - apply (proj2 (conveyor_signal_starts_run (calm 7)
                  (sys_of p [(CONVEYOR_CONTROL_ADDRESS, 1)]) p eq_refl eq_refl)).
    vm_compute; congruence.
Defined.

(** ** The sensors *)

Lemma poll_at_proximity_1_no_print e y p :
  cookie y = Some p → wf_production p → status p = running →
  current_index p < quantity p →
  sub_state p = Some AwaitingProximity1 →
  registers y !!! PROXIMITY_SENSOR_1_ADDRESS = 1 →
  faults e = [] → printer_ok e = false →
  ∃ c, qr_codes p !! Z.to_nat (current_index p) = Some c ∧
    (poll e y).2 =
      {| cookie := Some p; registers := registers y;
         print_log := print_log y ++ [qr_image c] |}.
Proof.
  intros Hp Hwf Hst Hlt Hsub H1 Hf Hpr.
  destruct (lookup_lt_is_Some_2 (qr_codes p) (Z.to_nat (current_index p)))
    as [c Hc].
  { destruct Hwf as ((? & ?) & ? & ? & _). lia. }
  exists c. split; [done|]. revert Hc. unfold poll.
  apply (serve_wp (λ _ y', qr_codes p !! Z.to_nat (current_index p) = Some c →
    y' = {| cookie := Some p; registers := registers y;
            print_log := print_log y ++ [qr_image c] |})).
  destruct y as [c0 regs lg]; cbn [cookie registers print_log] in *; subst c0.
  unfold initial_store; cbn [cookie registers print_log]; rewrite Hf.
  destruct_production p. wf_hyp Hwf. norm_store_in Hst. norm_store_in Hlt.
  unfold sub_state in Hsub; norm_store_in Hsub.
  destruct wfq; [done|]. destruct wp2; [done|]. destruct wp1; [|done]. subst.
  unfold_poll. repeat wp_step_ok.
  all: exact_leaf.
  all: intros Hc; simplify_eq; reflexivity.
Qed.

(** X8: a poll on a bus that does not fail finds a running, well-formed record
    with boxes left in sub-state AwaitingProximity1, proximity sensor 1 at 1
    and proximity sensor 2 not at 1.  The image of the current code is sent
    to the printer.  When the printer reports success the record waits for
    proximity sensor 2 and no longer for proximity sensor 1, and the
    register of proximity sensor 1 is written with 0; when it reports
    failure the record and the registers stay as they were. *)
Theorem proximity_1_prints (e : Env) (y : Sys) (p : Production) :
  cookie y = Some p → wf_production p → status p = running →
  current_index p < quantity p → sub_state p = Some AwaitingProximity1 →
  registers y !!! PROXIMITY_SENSOR_1_ADDRESS = 1 →
  registers y !!! PROXIMITY_SENSOR_2_ADDRESS ≠ 1 →
  faults e = [] →
  ∃ c, qr_codes p !! Z.to_nat (current_index p) = Some c ∧
    print_log (poll e y).2 = (print_log y ++ [qr_image c])%list ∧
    (printer_ok e = true →
       cookie (poll e y).2 = Some (set_waiting_for_proximity_2 true
                                     (set_waiting_for_proximity_1 false p)) ∧
       registers (poll e y).2 = <[PROXIMITY_SENSOR_1_ADDRESS := 0]> (registers y)) ∧
    (printer_ok e = false →
       cookie (poll e y).2 = Some p ∧ registers (poll e y).2 = registers y).
Proof.
  intros Hp Hwf Hst Hlt Hsub H1 H2 Hf.
  destruct (printer_ok e) eqn:Hpr.
  - destruct (poll_at_proximity_1 e y p) as (c & Hc & ->); try done.
    exists c. by repeat split.
  - destruct (poll_at_proximity_1_no_print e y p) as (c & Hc & ->); try done.
    exists c. by repeat split.
Qed.

Lemma arriving_run_wf : wf_production arriving_run.
Proof. unfold wf_production. vm_compute. repeat split; try congruence; eauto. Qed.

(** An instance of [proximity_1_prints]. *)
Lemma proximity_1_prints_witness :
  let y := sys_of arriving_run [(PROXIMITY_SENSOR_1_ADDRESS, 1)] in
  sub_state <$> cookie (poll (calm 5) y).2 = Some (Some AwaitingProximity2) ∧
  print_log (poll (calm 5) y).2 = [qr_image (sample_code 1 2)].
Proof.
  intros y.
  destruct (proximity_1_prints (calm 5) y arriving_run eq_refl arriving_run_wf
              eq_refl eq_refl eq_refl ltac:(by vm_compute)
              ltac:(vm_compute; congruence) eq_refl)
    as (c & Hc & Hlog & Hok & _).
  destruct (Hok eq_refl) as [-> _]. split; [reflexivity|].
  rewrite Hlog. by injection Hc as <-.
Defined.

(** X9: a poll on a bus that does not fail finds a running, well-formed record
    with boxes left in sub-state AwaitingProximity2, proximity sensor 2 at
    1, and neither proximity sensor 1 nor the scanner at 1; less than the
    scan window passes between the first two clock readings of the poll.
    The record then waits for the scan, with [sensor_check_start] the first
    clock reading; the register of proximity sensor 2 is written with 0 and
    nothing is printed. *)
Theorem proximity_2_opens_scan_window (e : Env) (y : Sys) (p : Production) :
  cookie y = Some p → wf_production p → status p = running →
  current_index p < quantity p → sub_state p = Some AwaitingProximity2 →
  registers y !!! PROXIMITY_SENSOR_1_ADDRESS ≠ 1 →
  registers y !!! PROXIMITY_SENSOR_2_ADDRESS = 1 →
  registers y !!! QR_SCANNER_ADDRESS ≠ 1 →
  faults e = [] → clock e 1 - clock e 0 < SCAN_WINDOW →
  ∃ p', cookie (poll e y).2 = Some p' ∧
    p' = set_sensor_check_start (Some (clock e 0))
           (set_waiting_for_qr true (set_waiting_for_proximity_2 false p)) ∧
    sub_state p' = Some AwaitingScan ∧
    registers (poll e y).2 = <[PROXIMITY_SENSOR_2_ADDRESS := 0]> (registers y) ∧
    print_log (poll e y).2 = print_log y.
Proof.
  intros Hp Hwf Hst Hlt Hsub H1 H2 H3 Hf Hck.
  rewrite (poll_at_proximity_2 e y p) by done. cbn [cookie registers print_log].
  eexists. split; [reflexivity|]. by repeat split.
Qed.

(** An instance of [proximity_2_opens_scan_window]. *)
Lemma proximity_2_opens_scan_window_witness :
  let p := set_waiting_for_proximity_2 true
             (set_waiting_for_proximity_1 false arriving_run) in
  let y := sys_of p [(PROXIMITY_SENSOR_2_ADDRESS, 1)] in
  sensor_check_start <$> cookie (poll (calm 5) y).2 = Some (Some 5).
Proof.
  intros p y.
  destruct (proximity_2_opens_scan_window (calm 5) y p eq_refl
              ltac:(unfold wf_production; vm_compute;
                    repeat split; try congruence; eauto)
              eq_refl eq_refl eq_refl
              ltac:(vm_compute; congruence) ltac:(by vm_compute)
              ltac:(vm_compute; congruence) eq_refl eq_refl)
    as (p' & -> & -> & _).
  reflexivity.
Defined.

(** X10: the three stages are evaluated one after the other within a poll.  A
    poll on a bus that does not fail, with a printer that prints, finds a
    running, well-formed record with boxes left in sub-state
    AwaitingProximity1 and all three of proximity sensor 1, proximity sensor
    2 and the scanner at 1: the box is printed, timed and accepted in this
    one poll.  The index advances by one, the accepted count is the counter
    register plus one, the three sensor registers are written with 0, the
    indicator with 1, one image is printed, and the record waits for
    proximity sensor 1 again. *)
Theorem box_passes_in_one_poll (e : Env) (y : Sys) (p : Production) :
  cookie y = Some p → wf_production p → status p = running →
  current_index p < quantity p → sub_state p = Some AwaitingProximity1 →
  registers y !!! PROXIMITY_SENSOR_1_ADDRESS = 1 →
  registers y !!! PROXIMITY_SENSOR_2_ADDRESS = 1 →
  registers y !!! QR_SCANNER_ADDRESS = 1 →
  faults e = [] → printer_ok e = true →
  ∃ p', cookie (poll e y).2 = Some p' ∧
    current_index p' = current_index p + 1 ∧
    accepted_boxes p' = registers y !!! ACCEPTED_BOXES_ADDRESS + 1 ∧
    rejected_boxes p' = rejected_boxes p ∧ status p' = running ∧
    sub_state p' = Some AwaitingProximity1 ∧
    sensor_check_start p' = Some (clock e 0) ∧
    registers (poll e y).2 !!! PROXIMITY_SENSOR_1_ADDRESS = 0 ∧
    registers (poll e y).2 !!! PROXIMITY_SENSOR_2_ADDRESS = 0 ∧
    registers (poll e y).2 !!! QR_SCANNER_ADDRESS = 0 ∧
    registers (poll e y).2 !!! BOX_STATUS_INDICATOR_ADDRESS = 1 ∧
    registers (poll e y).2 !!! ACCEPTED_BOXES_ADDRESS
      = registers y !!! ACCEPTED_BOXES_ADDRESS + 1 ∧
    Z.of_nat (length (print_log (poll e y).2)) = Z.of_nat (length (print_log y)) + 1.
Proof.
  intros Hp Hwf Hst Hlt Hsub H1 H2 H3 Hf Hpr. unfold poll.
  apply (serve_wp (λ _ y', ∃ p', cookie y' = Some p' ∧
    current_index p' = current_index p + 1 ∧
    accepted_boxes p' = registers y !!! ACCEPTED_BOXES_ADDRESS + 1 ∧
    rejected_boxes p' = rejected_boxes p ∧ status p' = running ∧
    sub_state p' = Some AwaitingProximity1 ∧
    sensor_check_start p' = Some (clock e 0) ∧
    registers y' !!! PROXIMITY_SENSOR_1_ADDRESS = 0 ∧
    registers y' !!! PROXIMITY_SENSOR_2_ADDRESS = 0 ∧
    registers y' !!! QR_SCANNER_ADDRESS = 0 ∧
    registers y' !!! BOX_STATUS_INDICATOR_ADDRESS = 1 ∧
    registers y' !!! ACCEPTED_BOXES_ADDRESS
      = registers y !!! ACCEPTED_BOXES_ADDRESS + 1 ∧
    Z.of_nat (length (print_log y')) = Z.of_nat (length (print_log y)) + 1)).
  destruct y as [c0 regs lg]; cbn [cookie registers print_log] in *; subst c0.
  unfold initial_store; cbn [cookie registers print_log]; rewrite Hf.
  destruct_production p. wf_hyp Hwf. norm_store_in Hst. norm_store_in Hlt.
  unfold sub_state in Hsub; norm_store_in Hsub.
  destruct wfq; [done|]. destruct wp2; [done|]. destruct wp1; [|done]. subst.
  unfold_poll. repeat wp_step_ok.
  all: unfold final_sys; norm_store; cbn [cookie registers print_log];
    bool_hyps; simplify_eq; index_hyps;
    try by (exfalso; first [lia | congruence | tauto]).
  all: eexists; split; [reflexivity|]; unfold sub_state; norm_store; regs;
    rewrite ?length_app, ?Nat2Z.inj_add; cbn [length]; repeat split; done || lia.
Qed.

(** An instance of [box_passes_in_one_poll]. *)
Lemma box_passes_in_one_poll_witness :
  let y := sys_of arriving_run [(PROXIMITY_SENSOR_1_ADDRESS, 1);
                                (PROXIMITY_SENSOR_2_ADDRESS, 1);
                                (QR_SCANNER_ADDRESS, 1)] in
  current_index <$> cookie (poll (calm 5) y).2 = Some 1.
Proof.
  intros y.
  destruct (box_passes_in_one_poll (calm 5) y arriving_run eq_refl arriving_run_wf
              eq_refl eq_refl eq_refl ltac:(by vm_compute) ltac:(by vm_compute)
              ltac:(by vm_compute) eq_refl eq_refl)
    as (p' & Hp' & Hi & _).
  rewrite Hp'. cbn [fmap option_fmap option_map]. by rewrite Hi.
Defined.

(** ** Requests without a session *)

Lemma request_wp {A} (Φ : Res A → Sys → Prop) (handler : M A) e y :
  wp handler (λ r s1, Φ (Ok r) (final_sys y s1))
     (λ x s1, Φ (Raise x) (final_sys y s1)) (initial_store e y) →
  Φ (request handler e y).1 (request handler e y).2.
Proof. unfold wp, request. by destruct (handler _) as [[r|x] s1]. Qed.

(** X11: without a run record in the session, a poll answers 200 with the
    default response (status [not_started]), a restart answers 400 and the
    summary answers 400; none of them makes a bus transaction or changes
    anything, so this holds whatever the bus would do. *)
Theorem no_session_requests (e : Env) (y : Sys) :
  cookie y = None →
  poll e y = (jsonify default_response 200, y) ∧
  serve (restart_conveyor e) e y
    = (jsonify (dict [("error", JStr "No production to restart")]) 400, y) ∧
  request production_summary e y = (Ok (SummaryError "No production data", 400), y).
Proof.
  destruct y as [c regs lg]; cbn [cookie]; intros ->. by repeat split.
Qed.

(** An instance of [no_session_requests]. *)
Lemma no_session_requests_witness :
  body (poll (faulty [true] 0) (idle zero_registers)).1 !! "status"
  = Some (JStr "not_started").
Proof.
  by rewrite (proj1 (no_session_requests (faulty [true] 0) (idle zero_registers)
                       eq_refl)).
Defined.

(** ** The summary *)

(** X12: the summary of a session with a run record never changes the session,
    the registers or the print log.  It answers either 200 with the run
    record and the values of the seven registers, or 500; on a bus that does
    not fail it answers 200. *)
Theorem production_summary_spec (e : Env) (y : Sys) (p : Production) :
  cookie y = Some p →
  let data :=
    SummaryData p
      {| ps_conveyor := registers y !!! CONVEYOR_CONTROL_ADDRESS;
         ps_proximity_1 := registers y !!! PROXIMITY_SENSOR_1_ADDRESS;
         ps_proximity_2 := registers y !!! PROXIMITY_SENSOR_2_ADDRESS;
         ps_scanner := registers y !!! QR_SCANNER_ADDRESS;
         ps_accepted_boxes := registers y !!! ACCEPTED_BOXES_ADDRESS;
         ps_production_complete := registers y !!! PRODUCTION_COMPLETE_ADDRESS;
         ps_box_status := registers y !!! BOX_STATUS_INDICATOR_ADDRESS |} in
  (request production_summary e y).2 = y ∧
  ((request production_summary e y).1 = Ok (data, 200) ∨
   (request production_summary e y).1 = Ok (SummaryError "exception", 500)) ∧
  (faults e = [] → (request production_summary e y).1 = Ok (data, 200)).
Proof.
  intros Hp data. subst data. split; [|split].
  - apply (request_wp (λ _ y', y' = y)).
    destruct y as [c0 regs lg]; cbn [cookie registers print_log] in *; subst c0.
    unfold initial_store, production_summary; cbn [cookie registers print_log].
    repeat wp_step. all: by unfold final_sys; norm_store.
  - apply (request_wp (λ r _, r = Ok (_, 200) ∨ r = Ok (SummaryError "exception", 500))).
    destruct y as [c0 regs lg]; cbn [cookie registers print_log] in *; subst c0.
    unfold initial_store, production_summary; cbn [cookie registers print_log].
    repeat wp_step. all: first [by left | by right].
  - intros Hf. apply (request_wp (λ r _, r = Ok (_, 200))).
    destruct y as [c0 regs lg]; cbn [cookie registers print_log] in *; subst c0.
    unfold initial_store, production_summary; cbn [cookie registers print_log].
    rewrite Hf. repeat wp_step_ok. done.
Qed.

(** An instance of [production_summary_spec]. *)
Lemma production_summary_spec_witness :
  (request production_summary (faulty [false; false; true] 0)
     (sys_of scanning_run [])).2 = sys_of scanning_run [] ∧
  snd <$> (match (request production_summary (calm 0) (sys_of scanning_run [])).1
           with Ok r => Some r | Raise _ => None end) = Some 200.
Proof.
  split.
  - apply (production_summary_spec (faulty [false; false; true] 0)
             (sys_of scanning_run []) scanning_run eq_refl).
  - by rewrite (proj2 (proj2 (production_summary_spec (calm 0)
                  (sys_of scanning_run []) scanning_run eq_refl)) eq_refl).
Defined.

(** ** Requests that fail on the bus *)

Lemma py_index_lt {A} (l : list A) i k :
  py_index l i = Some k → (k < length l)%nat.
Proof.
  unfold py_index. case_bool_decide; [intros [= <-]; lia|].
  case_bool_decide; [intros [= <-]; lia | done].
Qed.

(** [l[i] = x] followed by [l[i]] gives [x], for every index in range. *)
Lemma getitem_setitem {A} (l : list A) i k x :
  py_index l i = Some k →
  py_index (<[k:=x]> l) i ≫= ((<[k:=x]> l) !!.) = Some x.
Proof.
  intros Hk. pose proof (py_index_lt l i k Hk).
  unfold py_index in *. rewrite length_insert.
  destruct (bool_decide (0 ≤ i < Z.of_nat (length l))).
  - injection Hk as <-. cbn. by apply list_lookup_insert_eq.
  - destruct (bool_decide (- Z.of_nat (length l) ≤ i < 0)); [|done].
    injection Hk as <-. cbn. by apply list_lookup_insert_eq.
Qed.

(** X13: a restart that is not answered with 200 is answered with 400 or 500 and
    leaves the session and the print log as they were, whatever the bus
    does: the code regenerated in place before a failing bus write is not
    stored. *)
Theorem failed_restart_keeps_record (e : Env) (y : Sys) :
  http (serve (restart_conveyor e) e y).1 ≠ 200 →
  cookie (serve (restart_conveyor e) e y).2 = cookie y ∧
  print_log (serve (restart_conveyor e) e y).2 = print_log y ∧
  (http (serve (restart_conveyor e) e y).1 = 400 ∨
   http (serve (restart_conveyor e) e y).1 = 500).
Proof.
  apply (serve_wp (λ r y', http r ≠ 200 →
    cookie y' = cookie y ∧ print_log y' = print_log y ∧
    (http r = 400 ∨ http r = 500))).
  destruct y as [[p|] regs lg]; unfold initial_store; cbn [cookie registers print_log].
  - destruct_production p. unfold_handlers. repeat wp_step.
    all: unfold final_sys; norm_store; cbn [cookie registers print_log http jsonify];
      intros Hne;
      try match goal with
      | H : py_index ?l ?i = Some ?k, H' : py_index (<[?k:=?x]> ?l) ?i ≫= _ = None |- _ =>
          by rewrite (getitem_setitem l i k x H) in H'
      end;
      first [done | by (repeat split; auto)].
  - unfold_handlers. repeat wp_step.
    all: unfold final_sys; norm_store; cbn [cookie registers print_log http jsonify];
      intros Hne; first [done | by (repeat split; auto)].
Qed.

(** An instance of [failed_restart_keeps_record]. *)
Lemma failed_restart_keeps_record_witness :
  cookie (serve (restart_conveyor (faulty [false; true] 0)) (faulty [false; true] 0)
            (sys_of stopped_run [])).2 = Some stopped_run.
Proof.
  apply (failed_restart_keeps_record (faulty [false; true] 0) (sys_of stopped_run [])).
  vm_compute; congruence.
Defined.

(** X14: a reset that is not answered with 200 is answered with 500 and leaves
    the session as it was: the run is discarded only after all six register
    writes succeeded. *)
Theorem failed_reset_keeps_run (e : Env) (y : Sys) :
  http (serve reset_production e y).1 ≠ 200 →
  http (serve reset_production e y).1 = 500 ∧
  cookie (serve reset_production e y).2 = cookie y.
Proof.
  apply (serve_wp (λ r y', http r ≠ 200 → http r = 500 ∧ cookie y' = cookie y)).
  destruct y as [c regs lg]; unfold initial_store; cbn [cookie registers print_log].
  unfold_handlers. repeat wp_step.
  all: unfold final_sys; norm_store; cbn [cookie registers print_log http jsonify];
    intros Hne; done.
Qed.

(** An instance of [failed_reset_keeps_run]. *)
Lemma failed_reset_keeps_run_witness :
  cookie (serve reset_production (faulty [false; false; true] 0)
            (sys_of scanning_run [])).2 = Some scanning_run.
Proof.
  apply (failed_reset_keeps_run (faulty [false; false; true] 0)
           (sys_of scanning_run [])).
  vm_compute; congruence.
Defined.



(** ** The simulation endpoints *)

Lemma simulate_conveyor_start_ok e y :
  faults e = [] →
  (serve simulate_conveyor_start e y).2 =
    {| cookie := (λ p, set_waiting_for_proximity_1 true (set_status running p))
                   <$> cookie y;
       registers := <[CONVEYOR_CONTROL_ADDRESS := 5]> (registers y);
       print_log := print_log y |} ∧
  http (serve simulate_conveyor_start e y).1 = 200.
Proof.
  intros Hf.
  apply (serve_wp (λ r y', y' =
    {| cookie := (λ p, set_waiting_for_proximity_1 true (set_status running p))
                   <$> cookie y;
       registers := <[CONVEYOR_CONTROL_ADDRESS := 5]> (registers y);
       print_log := print_log y |} ∧ http r = 200)).
  destruct y as [[p|] regs lg]; unfold initial_store; cbn [cookie registers print_log];
    rewrite Hf; unfold_handlers; repeat wp_step_ok.
  all: by unfold final_sys; norm_store.
Qed.

(** X16: on a bus that does not fail, [simulate_conveyor_start] answers 200 and
    writes 5 to conveyor control; a run record in the session, whatever its
    status (also stopped or completed), is set running and waiting for
    proximity sensor 1 with everything else as it was; without a record the
    session stays empty.  A request that is not answered with 200 is
    answered with 500 and changes nothing. *)
Theorem simulate_conveyor_start_spec (e : Env) (y : Sys) :
  (faults e = [] →
     http (serve simulate_conveyor_start e y).1 = 200 ∧
     cookie (serve simulate_conveyor_start e y).2
       = (λ p, set_waiting_for_proximity_1 true (set_status running p)) <$> cookie y ∧
     registers (serve simulate_conveyor_start e y).2
       = <[CONVEYOR_CONTROL_ADDRESS := 5]> (registers y) ∧
     print_log (serve simulate_conveyor_start e y).2 = print_log y) ∧
  (http (serve simulate_conveyor_start e y).1 ≠ 200 →
     http (serve simulate_conveyor_start e y).1 = 500 ∧
     (serve simulate_conveyor_start e y).2 = y).
Proof.
  split.
  - intros Hf. destruct (simulate_conveyor_start_ok e y Hf) as [-> ->]. done.
  - apply (serve_wp (λ r y', http r ≠ 200 → http r = 500 ∧ y' = y)).
    destruct y as [[p|] regs lg]; unfold initial_store;
      cbn [cookie registers print_log]; unfold_handlers; repeat wp_step.
    all: by unfold final_sys; norm_store.
Qed.

(** An instance of [simulate_conveyor_start_spec]. *)
Lemma simulate_conveyor_start_spec_witness :
  status <$> cookie (serve simulate_conveyor_start (calm 0) (sys_of stopped_run [])).2
    = Some running ∧
  (serve simulate_conveyor_start (faulty [true] 0) (sys_of stopped_run [])).2
    = sys_of stopped_run [].
Proof.
  split.
  - destruct (proj1 (simulate_conveyor_start_spec (calm 0) (sys_of stopped_run []))
                eq_refl) as (_ & -> & _). reflexivity.
  - apply (proj2 (simulate_conveyor_start_spec (faulty [true] 0)
                    (sys_of stopped_run []))). vm_compute; congruence.
Defined.

(** X17: [simulate_conveyor_start] takes a stopped run up where it stopped,
    without a new code: for a stopped, well-formed record that waits for its
    scan, with the scanner register at 1 and a bus that does not fail, the
    poll after [simulate_conveyor_start] accepts the box that was rejected.
    The index advances by one, the rejection stays counted, and the codes
    are the ones of the stopped run. *)
Theorem simulated_start_resumes_stopped_run (e e' : Env) (y : Sys) (p : Production) :
  cookie y = Some p → wf_production p → status p = stopped →
  sub_state p = Some AwaitingScan →
  registers y !!! QR_SCANNER_ADDRESS = 1 →
  faults e = [] → faults e' = [] →
  ∃ p', cookie (poll e' (serve simulate_conveyor_start e y).2).2 = Some p' ∧
        status p' = running ∧
        current_index p' = current_index p + 1 ∧
        rejected_boxes p' = rejected_boxes p ∧
        qr_codes p' = qr_codes p.
Proof.
  intros Hp Hwf Hst Hsub Hqr Hf Hf'.
  destruct (simulate_conveyor_start_ok e y Hf) as [-> _]. rewrite Hp.
  cbn [fmap option_fmap option_map].
  set (p1 := set_waiting_for_proximity_1 true (set_status running p)).
  assert (Hwq : waiting_for_qr p = true).
  { unfold sub_state in Hsub. destruct (waiting_for_qr p); [done|].
    by destruct (waiting_for_proximity_2 p), (waiting_for_proximity_1 p). }
  assert (Hwf1 : wf_production p1).
  { destruct Hwf as ((? & ?) & ? & ? & Hq & Hs & ? & ?).
    destruct (Hq Hwq) as (? & ? & ?).
    unfold wf_production, p1; norm_store. repeat split; try done; lia. }
  match goal with
  | |- context [poll e' ?y1] =>
      rewrite (poll_at_scan e' y1 p1 eq_refl Hwf1 eq_refl
                 ltac:(by unfold sub_state, p1; norm_store; rewrite Hwq)
                 ltac:(cbn [registers]; by regs) Hf')
  end.
  eexists. split; [reflexivity|]. by unfold p1; norm_store.
Qed.

(** An instance of [simulated_start_resumes_stopped_run]. *)
Lemma simulated_start_resumes_stopped_run_witness :
  let y := sys_of stopped_run [(QR_SCANNER_ADDRESS, 1)] in
  ∃ p', cookie (poll (calm 9000000)
                  (serve simulate_conveyor_start (calm 8000000) y).2).2 = Some p' ∧
        current_index p' = 1 ∧ rejected_boxes p' = 1.
Proof.
  intros y.
  destruct (simulated_start_resumes_stopped_run (calm 8000000) (calm 9000000) y
              stopped_run eq_refl stopped_run_wf eq_refl eq_refl
              ltac:(by vm_compute) eq_refl eq_refl)
    as (p' & Hp' & _ & Hi & Hr & _).
  exists p'. split; [exact Hp'|]. split; [by rewrite Hi | by rewrite Hr].
Defined.

(** X18: on a bus that does not fail, [activate_scanner] answers 200, writes 1 to
    the scanner register and changes nothing else; the next poll without bus
    failure of a running, well-formed record that waits for its scan then
    advances the index by one.  A request that is not answered with 200 is
    answered with 500 and changes nothing. *)
Theorem activate_scanner_spec (e e' : Env) (y : Sys) :
  (faults e = [] →
     http (serve activate_scanner e y).1 = 200 ∧
     (serve activate_scanner e y).2 =
       {| cookie := cookie y;
          registers := <[QR_SCANNER_ADDRESS := 1]> (registers y);
          print_log := print_log y |} ∧
     ∀ p, cookie y = Some p → wf_production p → status p = running →
          sub_state p = Some AwaitingScan → faults e' = [] →
          current_index <$> cookie (poll e' (serve activate_scanner e y).2).2
            = Some (current_index p + 1)) ∧
  (http (serve activate_scanner e y).1 ≠ 200 →
     http (serve activate_scanner e y).1 = 500 ∧ (serve activate_scanner e y).2 = y).
Proof.
  split.
  - intros Hf.
    assert (http (serve activate_scanner e y).1 = 200 ∧
            (serve activate_scanner e y).2 =
              {| cookie := cookie y;
                 registers := <[QR_SCANNER_ADDRESS := 1]> (registers y);
                 print_log := print_log y |}) as [H1 H2].
    { apply (serve_wp (λ r y', http r = 200 ∧ y' = _)).
      destruct y as [c regs lg]; unfold initial_store;
        cbn [cookie registers print_log]; rewrite Hf; unfold_handlers;
        repeat wp_step_ok.
      by unfold final_sys; norm_store. }
    split; [done|]. split; [done|].
    intros p Hp Hwf Hst Hsub Hf'. rewrite H2, Hp.
    match goal with
    | |- context [poll e' ?y1] =>
        rewrite (poll_at_scan e' y1 p eq_refl Hwf Hst Hsub
                   ltac:(cbn [registers]; by regs) Hf')
    end.
    done.
  - apply (serve_wp (λ r y', http r ≠ 200 → http r = 500 ∧ y' = y)).
    destruct y as [c regs lg]; unfold initial_store;
      cbn [cookie registers print_log]; unfold_handlers; repeat wp_step.
    all: by unfold final_sys; norm_store.
Qed.

(** An instance of [activate_scanner_spec]. *)
Lemma activate_scanner_spec_witness :
  current_index <$>
    cookie (poll (calm 1) (serve activate_scanner (calm 0) (sys_of scanning_run [])).2).2
  = Some 1.
Proof.
  destruct (proj1 (activate_scanner_spec (calm 0) (calm 1) (sys_of scanning_run []))
              eq_refl) as (_ & _ & H).
  by rewrite (H scanning_run eq_refl scanning_run_wf eq_refl eq_refl eq_refl).
Defined.

(** ** The codes of a run *)






(** ** The indicator thread *)

(** X20: a turn of the indicator thread never raises, whatever the bus does, and
    leaves the registers as they were or with the indicator written with 0:
    no other register is touched.  When no bus transaction fails the
    indicator reads 0 after the turn, and a turn that finds the indicator at
    0 writes nothing. *)
Theorem indicator_turn_spec (outcomes : list bool) (regs : gmap Z Z)
    (s : St) :
  (control_indicator_lights_turn s).1 = Ok tt ∧
  (indicator_turn outcomes regs = regs ∨
   indicator_turn outcomes regs = <[BOX_STATUS_INDICATOR_ADDRESS := 0]> regs) ∧
  (outcomes = [] →
     indicator_turn outcomes regs !!! BOX_STATUS_INDICATOR_ADDRESS = 0) ∧
  (regs !!! BOX_STATUS_INDICATOR_ADDRESS = 0 → indicator_turn outcomes regs = regs).
Proof.
  unfold indicator_turn, control_indicator_lights_turn, try_except, mbind, M_bind,
    read_plc_memory, write_plc_memory, next_fault, when, pass, mret, M_ret.
  split; [|split; [|split]].
  - destruct s as [? ? R [|[] [|[] ?]] ? ? ?]; cbn;
      by destruct (R !!! BOX_STATUS_INDICATOR_ADDRESS =? 0).
  - destruct outcomes as [|[] [|[] ?]]; cbn;
      destruct (regs !!! BOX_STATUS_INDICATOR_ADDRESS =? 0); cbn; auto.
  - intros ->. cbn.
    destruct (regs !!! BOX_STATUS_INDICATOR_ADDRESS =? 0) eqn:H0; cbn.
    + by apply Z.eqb_eq.
    + by rewrite lookup_total_insert_eq.
  - intros H0. destruct outcomes as [|[] [|[] ?]]; cbn; by rewrite ?H0.
Qed.

(** An instance of [indicator_turn_spec]. *)
Lemma indicator_turn_spec_witness :
  indicator_turn [] (registers_with [(BOX_STATUS_INDICATOR_ADDRESS, 2)])
    !!! BOX_STATUS_INDICATOR_ADDRESS = 0 ∧
  indicator_turn [true] zero_registers = zero_registers.
Proof.
  destruct (indicator_turn_spec [] (registers_with [(BOX_STATUS_INDICATOR_ADDRESS, 2)])
              (initial_store (calm 0) (idle zero_registers))) as (_ & _ & H & _).
  destruct (indicator_turn_spec [true] zero_registers
              (initial_store (calm 0) (idle zero_registers))) as (_ & _ & _ & H').
  split; [by apply H | by apply H'].
Defined.

(** ** The listing of the report *)

Lemma list_index_lookup `{EqDecision A} (x : A) (l : list A) k :
  list_index x l = Some k → l !! k = Some x.
Proof.
  revert k. induction l as [|a l IH]; intros k; [done|]. cbn.
  destruct (decide (a = x)) as [->|]; [by intros [= <-]|].
  destruct (list_index x l) as [j|]; [|done]. intros [= <-]. by apply IH.
Qed.

Lemma list_index_elem_of `{EqDecision A} (x : A) (l : list A) :
  x ∈ l → is_Some (list_index x l).
Proof.
  induction 1 as [|a b l ? IH]; cbn.
  - rewrite decide_True by done. eauto.
  - destruct (decide (b = a)); [eauto|]. destruct IH as [j ->]. eauto.
Qed.

(** With distinct identifiers, [index] finds a code where it is. *)
Lemma list_index_NoDup (l : list QrCode) k c :
  NoDup (unique_id <$> l) → l !! k = Some c → list_index c l = Some k.
Proof.
  intros Hnd Hk.
  destruct (list_index_elem_of c l) as [j Hj]; [by eapply list_elem_of_lookup_2|].
  rewrite Hj. f_equal. apply list_index_lookup in Hj.
  eapply (NoDup_lookup (unique_id <$> l)); [done| |];
    rewrite list_lookup_fmap; [by rewrite Hj | by rewrite Hk].
Qed.

Lemma qr_code_lines_spec p codes : ∀ (page : nat) (m : Z),
  0 ≤ m ≤ 37 → (∀ c, c ∈ codes → c ∈ qr_codes p) →
  ∃ lines, qr_code_lines p codes page (60 + 20 * m) = Some lines ∧
    length lines = length codes ∧
    ∀ (k : nat) c, codes !! k = Some c →
      ∃ l j, lines !! k = Some l ∧ list_index c (qr_codes p) = Some j ∧
        line_id l = unique_id c ∧
        line_status l = (if Z.of_nat j <? accepted_boxes p
                         then "Accepted" else "Rejected") ∧
        (Z.of_nat k ≤ m →
           line_page l = page ∧ line_y l = 60 + 20 * (m - Z.of_nat k)) ∧
        (m < Z.of_nat k →
           Z.of_nat (line_page l) = Z.of_nat page + 1 + (Z.of_nat k - m - 1) / 38 ∧
           line_y l = 800 - 20 * ((Z.of_nat k - m - 1) mod 38)).
Proof.
  induction codes as [|c0 codes IH]; intros page m Hm Hin.
  - exists []. by repeat split.
  - cbn [qr_code_lines].
    destruct (list_index_elem_of c0 (qr_codes p)) as [j0 Hj0];
      [apply Hin; left|].
    rewrite Hj0. cbn [mbind option_bind].
    assert (Hin' : ∀ c, c ∈ codes → c ∈ qr_codes p)
      by (intros c Hc; apply Hin; by right).
    destruct (60 + 20 * m - 20 <? 50) eqn:Hy.
    + apply Z.ltb_lt in Hy. assert (m = 0) as -> by lia.
      destruct (IH (S page) 37 ltac:(lia) Hin') as (lines & Heq & Hlen & Hl).
      change 800 with (60 + 20 * 37). rewrite Heq. cbn [mbind option_bind].
      eexists. split; [reflexivity|]. split; [by cbn; rewrite Hlen|].
      intros [|k] c Hk.
      * injection Hk as <-. do 2 eexists. split; [reflexivity|].
        cbn [line_id line_status line_page line_y].
        repeat split; try done; lia.
      * destruct (Hl k c Hk) as (l & j & Hlk & Hj & Hid & Hs & Hle & Hgt).
        exists l, j. repeat split; try done; try lia.
        -- destruct (decide (Z.of_nat k ≤ 37)) as [Hk37|Hk37].
           ++ destruct (Hle Hk37) as [-> _].
              replace ((Z.of_nat (S k) - 0 - 1) / 38) with 0; [lia|].
              symmetry. apply Z.div_small. lia.
           ++ destruct (Hgt ltac:(lia)) as [-> _].
              replace (Z.of_nat (S k) - 0 - 1) with (Z.of_nat k - 37 - 1 + 1 * 38) by lia.
              rewrite Z.div_add by lia. lia.
        -- destruct (decide (Z.of_nat k ≤ 37)) as [Hk37|Hk37].
           ++ destruct (Hle Hk37) as [_ ->].
              rewrite Z.mod_small by lia. lia.
           ++ destruct (Hgt ltac:(lia)) as [_ ->].
              replace (Z.of_nat (S k) - 0 - 1) with (Z.of_nat k - 37 - 1 + 1 * 38) by lia.
              by rewrite Z.mod_add by lia.
    + apply Z.ltb_ge in Hy.
      destruct (IH page (m - 1) ltac:(lia) Hin') as (lines & Heq & Hlen & Hl).
      replace (60 + 20 * m - 20) with (60 + 20 * (m - 1)) by lia.
      rewrite Heq. cbn [mbind option_bind].
      eexists. split; [reflexivity|]. split; [by cbn; rewrite Hlen|].
      intros [|k] c Hk.
      * injection Hk as <-. do 2 eexists. split; [reflexivity|].
        cbn [line_id line_status line_page line_y].
        repeat split; try done; lia.
      * destruct (Hl k c Hk) as (l & j & Hlk & Hj & Hid & Hs & Hle & Hgt).
        exists l, j. repeat split; try done.
        -- by apply Hle; lia.
        -- destruct Hle as [_ ->]; lia.
        -- destruct Hgt as [-> _]; [lia|].
           by replace (Z.of_nat (S k) - m - 1) with (Z.of_nat k - (m - 1) - 1) by lia.
        -- destruct Hgt as [_ ->]; [lia|].
           by replace (Z.of_nat (S k) - m - 1) with (Z.of_nat k - (m - 1) - 1) by lia.
Qed.

(** X21: the listing of the report has one line for every code of the run, in
    order, with the identifier of the code.  Line [k] (from 0) is on the
    first page at height [520 - 20 k] for [k < 24], and otherwise on page
    [1 + (k - 24) / 38] at height [800 - 20 ((k - 24) mod 38)]: every line
    is drawn between heights 60 and 800, and the [index] call of the loop
    never fails. *)
Theorem pdf_listing_layout (p : Production) :
  ∃ lines, generated_qr_codes p = Some lines ∧
    length lines = length (qr_codes p) ∧
    ∀ (k : nat) c, qr_codes p !! k = Some c →
      ∃ l, lines !! k = Some l ∧ line_id l = unique_id c ∧
           Z.of_nat (line_page l) = listing_page (Z.of_nat k) ∧
           line_y l = listing_y (Z.of_nat k) ∧
           60 ≤ line_y l ≤ 800.
Proof.
  destruct (qr_code_lines_spec p (qr_codes p) 0 23 ltac:(lia) ltac:(done))
    as (lines & Heq & Hlen & Hl).
  exists lines. split; [exact Heq|]. split; [exact Hlen|].
  intros k c Hk. destruct (Hl k c Hk) as (l & j & Hlk & _ & Hid & _ & Hle & Hgt).
  exists l. split; [done|]. split; [done|].
  unfold listing_page, listing_y.
  destruct (Z.of_nat k <? 24) eqn:Hk24.
  - apply Z.ltb_lt in Hk24. destruct Hle as [-> ->]; [lia|]. lia.
  - apply Z.ltb_ge in Hk24. destruct Hgt as [-> ->]; [lia|].
    replace (Z.of_nat k - 23 - 1) with (Z.of_nat k - 24) by lia.
    pose proof (Z.mod_pos_bound (Z.of_nat k - 24) 38 ltac:(lia)).
    repeat split; lia.
Qed.

(** X22: when the identifiers of the codes of a run are distinct, line [k] of the
    listing says [Accepted] exactly when [k] is below the accepted count of
    the record, and [Rejected] otherwise (also for the boxes not yet
    processed). *)
Theorem pdf_listing_status (p : Production) (lines : list PdfLine) :
  NoDup (unique_id <$> qr_codes p) → generated_qr_codes p = Some lines →
  ∀ (k : nat) l, lines !! k = Some l →
    line_status l = if Z.of_nat k <? accepted_boxes p then "Accepted" else "Rejected".
Proof.
  intros Hnd Heq k l Hlk.
  destruct (qr_code_lines_spec p (qr_codes p) 0 23 ltac:(lia) ltac:(done))
    as (lines' & Heq' & Hlen & Hl).
  change (generated_qr_codes p = Some lines') in Heq'.
  rewrite Heq in Heq'. injection Heq' as <-.
  destruct (lookup_lt_is_Some_2 (qr_codes p) k) as [c Hc].
  { rewrite <- Hlen. by eapply lookup_lt_Some. }
  destruct (Hl k c Hc) as (l' & j & Hlk' & Hj & _ & Hs & _).
  rewrite (list_index_NoDup _ k c Hnd Hc) in Hj. injection Hj as <-.
  rewrite Hlk in Hlk'. by injection Hlk' as <-.
Qed.

(** An instance of [pdf_listing_status]. *)
Lemma pdf_listing_status_witness :
  line_status <$> (generated_qr_codes
     (set_accepted_boxes 1
        (set_qr_codes [sample_code 1 2; qr_code_for (qr_data_of scanning_run) 1 "X"]
           scanning_run)) ≫= (.!! 1%nat))
  = Some "Rejected".
Proof.
  set (p := set_accepted_boxes 1 _).
  destruct (generated_qr_codes p) as [lines|] eqn:Heq; [|by vm_compute in Heq].
  destruct (lines !! 1%nat) as [l|] eqn:Hl; [|by vm_compute in Heq; simplify_eq].
  cbn [mbind option_bind]. rewrite Hl. cbn [fmap option_fmap option_map].
  by rewrite (pdf_listing_status p lines
                ltac:(apply (bool_decide_unpack _); by vm_compute) Heq 1%nat l Hl).
Defined.
